(** * Smart Investment Mixer: a shallow embedding of [app.py]

    The development follows [optimize_portfolio] of [src/app.py] line by
    line.  The external collaborators of that function (the market-data
    download, the SLSQP solver, the random generator, the number formatting
    of f-strings) are variables of a section; the function itself is written
    in a small state-and-exception monad whose state records the calls made
    to the collaborators and the state of the random generator.

    Numbers: the source computes in IEEE binary64.  Here a number is either
    [NaN] or an exact real; rounding, overflow and the infinities are not
    modelled.  A quotient by zero is [NaN], which is what binary64 gives for
    0/0; a non-zero number over zero is an infinity in binary64 and needs a
    zero price, or a draw of the generator outside [0, 1). *)

From Stdlib Require Import Reals Lra Lia String Ascii Bool Arith PeanoNat.
From Stdlib Require PrimFloat.
From Stdlib Require Import List.
Import ListNotations.

Set Implicit Arguments.
Set Warnings "-abstract-large-number".

(* ================================================================== *)
(** * Python strings (ASCII) *)
(* ================================================================== *)

Module Py.

(** [str.isspace] on one ASCII character: tab, line feed, vertical tab,
    form feed, carriage return, the four separators 28..31, and space. *)
Definition isspace (c : ascii) : bool :=
  let n := nat_of_ascii c in
  ((9 <=? n) && (n <=? 13)) || ((28 <=? n) && (n <=? 32)).

(** [str.upper] on one ASCII character. *)
Definition upper_char (c : ascii) : ascii :=
  let n := nat_of_ascii c in
  if (97 <=? n) && (n <=? 122) then ascii_of_nat (n - 32) else c.

Fixpoint upper (s : string) : string :=
  match s with
  | EmptyString => EmptyString
  | String c s' => String (upper_char c) (upper s')
  end.

Fixpoint lstrip (s : string) : string :=
  match s with
  | EmptyString => EmptyString
  | String c s' => if isspace c then lstrip s' else s
  end.

(** [rstrip]: a character is kept when something other than white space
    follows it, or when it is not white space itself. *)
Fixpoint rstrip (s : string) : string :=
  match s with
  | EmptyString => EmptyString
  | String c s' =>
      match rstrip s' with
      | EmptyString => if isspace c then EmptyString else String c EmptyString
      | r => String c r
      end
  end.

(** [s.strip()] with no argument. *)
Definition strip (s : string) : string := rstrip (lstrip s).

(** [s.split(sep)] for a one-character separator: the pieces between the
    occurrences of [sep], empty pieces kept. *)
Fixpoint split (sep : ascii) (s : string) : list string :=
  match s with
  | EmptyString => [EmptyString]
  | String c s' =>
      if Ascii.eqb c sep then EmptyString :: split sep s'
      else match split sep s' with
           | [] => [String c EmptyString]
           | piece :: pieces => String c piece :: pieces
           end
  end.

(** Characters of a string, for quantifying over them. *)
Fixpoint chars (s : string) : list ascii :=
  match s with
  | EmptyString => []
  | String c s' => c :: chars s'
  end.

(** A string of white space only. *)
Definition blank (s : string) : Prop :=
  Forall (fun c => isspace c = true) (chars s).

(** [s.count(sep)] for a one-character [sep]. *)
Fixpoint count (sep : ascii) (s : string) : nat :=
  match s with
  | EmptyString => 0
  | String c s' => (if Ascii.eqb c sep then 1 else 0) + count sep s'
  end.

End Py.

(* ================================================================== *)
(** * Numbers and NumPy arrays *)
(* ================================================================== *)

(** A float of the source: not-a-number, or a real. *)
Inductive num : Type :=
| NaN : num
| Num : R -> num.

Declare Scope num_scope.
Delimit Scope num_scope with num.
Bind Scope num_scope with num.

Module Np.

Local Open Scope R_scope.

Definition lift2 (f : R -> R -> R) (a b : num) : num :=
  match a, b with
  | Num x, Num y => Num (f x y)
  | _, _ => NaN
  end.

Definition add : num -> num -> num := lift2 Rplus.
Definition sub : num -> num -> num := lift2 Rminus.
Definition mul : num -> num -> num := lift2 Rmult.

(** Division; a zero divisor gives [NaN]. *)
Definition div (a b : num) : num :=
  match a, b with
  | Num x, Num y => if Req_dec_T y 0 then NaN else Num (x / y)
  | _, _ => NaN
  end.

Definition neg (a : num) : num :=
  match a with
  | Num x => Num (- x)
  | NaN => NaN
  end.

(** [np.sqrt]: not-a-number on a negative argument. *)
Definition sqrt (a : num) : num :=
  match a with
  | Num x => if Rlt_dec x 0 then NaN else Num (R_sqrt.sqrt x)
  | NaN => NaN
  end.

Definition isnan (a : num) : bool :=
  match a with
  | NaN => true
  | Num _ => false
  end.

(** [np.sum] of a one-dimensional array. *)
Fixpoint sum (a : list num) : num :=
  match a with
  | [] => Num 0
  | x :: a' => add x (sum a')
  end.

(** [np.dot] of two one-dimensional arrays of one length (NumPy raises on a
    shape mismatch; every call of the source has matching shapes). *)
Fixpoint dot (a b : list num) : num :=
  match a, b with
  | x :: a', y :: b' => add (mul x y) (dot a' b')
  | _, _ => Num 0
  end.

(** [np.dot] of a two-dimensional array (a list of rows) and a vector. *)
Definition matvec (m : list (list num)) (v : list num) : list num :=
  map (fun row => dot row v) m.

(** [a / s] with a scalar [s], element by element. *)
Definition div_scalar (a : list num) (s : num) : list num :=
  map (fun x => div x s) a.

(** [a + s] with a scalar [s], element by element. *)
Definition add_scalar (a : list num) (s : num) : list num :=
  map (fun x => add x s) a.

(** [a / b], element by element. *)
Fixpoint div_arrays (a b : list num) : list num :=
  match a, b with
  | x :: a', y :: b' => div x y :: div_arrays a' b'
  | _, _ => []
  end.

End Np.

Notation "a + b" := (Np.add a b) : num_scope.
Notation "a - b" := (Np.sub a b) : num_scope.
Notation "a * b" := (Np.mul a b) : num_scope.
Notation "a / b" := (Np.div a b) : num_scope.
Notation "- a" := (Np.neg a) : num_scope.

(** The literals of the source. *)
Definition trading_days : num := Num 252.
Definition epsilon : num := Num 1e-9.

(* ================================================================== *)
(** * pandas frames *)
(* ================================================================== *)

Module Pd.

Local Open Scope R_scope.

(** A [DataFrame] of floats: [ncols] columns and the rows in index order.
    In a well-formed frame every row has [ncols] cells. *)
Record DataFrame : Type := mkFrame {
  ncols : nat;
  rows : list (list num)
}.

Definition wf (d : DataFrame) : Prop :=
  Forall (fun row => length row = ncols d) (rows d).

(** [d.empty]: some axis has length zero. *)
Definition empty (d : DataFrame) : bool :=
  (length (rows d) =? 0)%nat || (ncols d =? 0)%nat.

(** [d.isnull().all().all()]: every cell is missing. *)
Definition isnull_all_all (d : DataFrame) : bool :=
  forallb (forallb Np.isnan) (rows d).

(** [d.shape[1]]. *)
Definition shape1 (d : DataFrame) : nat := ncols d.

(** One row of [pct_change]: [cur / prev - 1], cell by cell. *)
Fixpoint pct_row (cur prev : list num) : list num :=
  match cur, prev with
  | p :: cur', q :: prev' => (p / q - Num 1)%num :: pct_row cur' prev'
  | _, _ => []
  end.

Fixpoint pct_rows (prev : list num) (rs : list (list num))
  : list (list num) :=
  match rs with
  | [] => []
  | r :: rs' => pct_row r prev :: pct_rows r rs'
  end.

(** [d.pct_change()] as pandas computes it when missing prices are not
    filled first ([fill_method=None], the only behaviour from pandas 3 on;
    earlier versions pad a missing price with the one before it).  The
    first row has no predecessor and is all [NaN]. *)
Definition pct_change (d : DataFrame) : DataFrame :=
  match rows d with
  | [] => d
  | r :: rs => mkFrame (ncols d) (map (fun _ => NaN) r :: pct_rows r rs)
  end.

(** The cells of a row when none is missing. *)
Fixpoint complete (row : list num) : option (list R) :=
  match row with
  | [] => Some []
  | Num x :: row' => option_map (cons x) (complete row')
  | NaN :: _ => None
  end.

Fixpoint complete_rows (rs : list (list num)) : list (list R) :=
  match rs with
  | [] => []
  | r :: rs' =>
      match complete r with
      | Some xs => xs :: complete_rows rs'
      | None => complete_rows rs'
      end
  end.

(** A frame without a missing cell, as [dropna] returns it. *)
Record CleanFrame : Type := mkClean {
  cncols : nat;
  crows : list (list R)
}.

(** [d.dropna()]: the rows in which no cell is missing. *)
Definition dropna (d : DataFrame) : CleanFrame :=
  mkClean (ncols d) (complete_rows (rows d)).

Definition column (j : nat) (c : CleanFrame) : list R :=
  map (fun row => nth j row 0) (crows c).

Fixpoint Rsum (l : list R) : R :=
  match l with
  | [] => 0
  | x :: l' => x + Rsum l'
  end.

Definition Rmean (l : list R) : R := Rsum l / INR (length l).

(** Mean of a column; [NaN] for a column without observations. *)
Definition column_mean (l : list R) : num :=
  match l with
  | [] => NaN
  | _ => Num (Rmean l)
  end.

Fixpoint cross (mx my : R) (xs ys : list R) : R :=
  match xs, ys with
  | x :: xs', y :: ys' => (x - mx) * (y - my) + cross mx my xs' ys'
  | _, _ => 0
  end.

(** Sample covariance of two columns (divisor [n - 1]); [NaN] with fewer than
    two observations. *)
Definition column_cov (xs ys : list R) : num :=
  if (length xs <? 2)%nat then NaN
  else Num (cross (Rmean xs) (Rmean ys) xs ys / (INR (length xs) - 1)).

(** [c.mean()]: the Series of column means. *)
Definition mean (c : CleanFrame) : list num :=
  map (fun j => column_mean (column j c)) (seq 0 (cncols c)).

(** [c.cov()]: the matrix of pairwise column covariances. *)
Definition cov (c : CleanFrame) : list (list num) :=
  map (fun j =>
         map (fun k => column_cov (column j c) (column k c))
             (seq 0 (cncols c)))
      (seq 0 (cncols c)).

(** [series * s] and [frame * s] with a scalar [s]. *)
Definition series_mul (a : list num) (s : num) : list num :=
  map (fun x => (x * s)%num) a.

Definition frame_mul (m : list (list num)) (s : num) : list (list num) :=
  map (fun row => series_mul row s) m.

End Pd.

(* ================================================================== *)
(** * Exceptions, collaborators and the monad of the pipeline *)
(* ================================================================== *)

(** The exceptions that reach the [except Exception] clause.  [str e] is the
    message. *)
Inductive exn : Type :=
| ValueError (msg : string)
| ZeroDivisionError (msg : string)
| CollaboratorError (msg : string).

Definition str (e : exn) : string :=
  match e with
  | ValueError m | ZeroDivisionError m | CollaboratorError m => m
  end.

Inductive result (A : Type) : Type :=
| Ok (a : A)
| Raise (e : exn).

Arguments Ok {A} a.
Arguments Raise {A} e.

(** One entry of the [constraints] argument of [scipy.optimize.minimize]. *)
Record constraint : Type := mkConstraint {
  ctype : string;
  cfun : list num -> num
}.

(** The arguments of one call of [scipy.optimize.minimize]; [objective] is
    the function with its [args] supplied. *)
Record problem : Type := mkProblem {
  objective : list num -> num;
  x0 : list num;
  method : string;
  bounds : list (num * num);
  constraints : list constraint
}.

(** The fields of scipy's [OptimizeResult] that matter here. *)
Record OptimizeResult : Type := mkSolution {
  x : list num;
  success : bool
}.

(** What is drawn on the figure that is returned. *)
Inductive Figure : Type :=
| EmptyFigure
| Scatter (cloud_x cloud_y cloud_c : list num) (star_x star_y : num).

(** The table handed to the interface: the rows (Stock, Recommended Mix);
    [pd.DataFrame()] is the table without rows. *)
Definition Table : Type := list (string * string).

Definition Output : Type := (Figure * Table * string)%type.

(** Calls made to the collaborators, oldest first. *)
Inductive call : Type :=
| Download (tickers : list string) (start : string)
| Minimize (p : problem).

Definition newline : string := String (ascii_of_nat 10) EmptyString.

Definition default_start_date : string := "2020-01-01".

(** The messages of lines 73 and 77, and of pandas for columns of unequal
    lengths. *)
Definition empty_tickers_message : string := "Ticker list cannot be empty.".

Definition invalid_data_message : string :=
  "Could not download valid data for all tickers. Please check the company symbols.".

Definition unequal_lengths_message : string :=
  "All arrays must be of the same length".

(* ================================================================== *)
(** * The return model as the specification words it *)
(* ================================================================== *)

Module Spec.

(** The price of column [j] at row [t], counted from zero. *)
Definition price (d : Pd.DataFrame) (t j : nat) : num :=
  nth j (nth t (Pd.rows d) []) NaN.

(** [r_t = P_t / P_(t-1) - 1], for every column. *)
Definition simple_return_row (d : Pd.DataFrame) (t : nat) : list num :=
  map (fun j => (price d t j / price d (t - 1) j - Num 1)%num)
      (seq 0 (Pd.ncols d)).

(** The rows [t = 2..T] of the specification are the rows [1..T-1] here. *)
Definition simple_returns (d : Pd.DataFrame) : list (list num) :=
  map (simple_return_row d) (seq 1 (length (Pd.rows d) - 1)).

Definition no_missing (row : list num) : bool :=
  forallb (fun c => negb (Np.isnan c)) row.

(** Drop any row containing a missing value. *)
Definition valid_rows (rs : list (list num)) : list (list num) :=
  filter no_missing rs.

(** The objective of the optimizer on real vectors:
    [f(w) = -(w . m - r_f) / (sqrt (w^T . C . w) + eps)] with [r_f = 0] and
    [eps = 1e-9]. *)
Fixpoint dot (a b : list R) : R :=
  match a, b with
  | x :: a', y :: b' => (x * y + dot a' b')%R
  | _, _ => 0%R
  end.

Definition quadratic (C : list (list R)) (w : list R) : R :=
  dot w (map (fun row => dot row w) C).

Definition negative_sharpe (w m : list R) (C : list (list R)) : R :=
  (- (dot w m - 0) / (sqrt (quadratic C w) + 1e-9))%R.

(** All prices multiplied by the constant [c]. *)
Definition scale (c : R) (d : Pd.DataFrame) : Pd.DataFrame :=
  Pd.mkFrame (Pd.ncols d)
             (map (map (fun p => (Num c * p)%num)) (Pd.rows d)).


(** No price of the frame is zero. *)
Definition nonzero_prices (d : Pd.DataFrame) : Prop :=
  Forall (Forall (fun p => p <> Num 0)) (Pd.rows d).

End Spec.

(* ================================================================== *)
(** * Concrete collaborators, for running the pipeline on examples *)
(* ================================================================== *)

Module Demo.

Local Open Scope R_scope.

(** Three days of prices of two assets. *)
Definition prices : Pd.DataFrame :=
  Pd.mkFrame 2 [ [Num 1; Num 2]; [Num 2; Num 2]; [Num 3; Num 4] ].

(** Two days of prices of one asset: a single return. *)
Definition two_days : Pd.DataFrame :=
  Pd.mkFrame 1 [ [Num 1]; [Num 2] ].

Definition market (d : Pd.DataFrame) (tickers : list string)
  (start : string) : result Pd.DataFrame := Ok d.

(** A solver that stops at its starting point and reports no convergence. *)
Definition stalled_solver (p : problem) : result OptimizeResult :=
  Ok (mkSolution (x0 p) false).

(** A solver that stops at its starting point and reports convergence. *)
Definition converged_solver (p : problem) : result OptimizeResult :=
  Ok (mkSolution (x0 p) true).

(** A generator whose state counts the draws; every draw is one half. *)
Definition halves (g : nat) : R * nat := (1 / 2, S g).

(** A generator whose first draw is zero, the later ones one half. *)
Definition zero_first (g : nat) : R * nat :=
  match g with
  | O => (0, S g)
  | S _ => (1 / 2, S g)
  end.

Definition show (a : num) : string :=
  match a with
  | NaN => "nan"
  | Num _ => "num"
  end.

End Demo.

Section Pipeline.

(** State of NumPy's global random generator. *)
Variable G : Type.

(** The collaborators: the market-data provider behind [yf.download(...)]
    followed by the selection of ['Close'], the SLSQP solver, one draw of the
    generator, and the two float formats of the f-strings
    ([.2%] and [.2f]). *)
Variable market_data : list string -> string -> result Pd.DataFrame.
Variable slsqp : problem -> result OptimizeResult.
Variable random_sample : G -> R * G.
Variable format_percent : num -> string.
Variable format_fixed : num -> string.

Record world : Type := mkWorld {
  calls : list call;
  rng : G
}.

Definition M (A : Type) : Type := world -> result A * world.

Definition ret {A} (a : A) : M A := fun w => (Ok a, w).

Definition raise {A} (e : exn) : M A := fun w => (Raise e, w).

Definition bind {A B} (c : M A) (k : A -> M B) : M B :=
  fun w =>
    match c w with
    | (Ok a, w') => k a w'
    | (Raise e, w') => (Raise e, w')
    end.

Notation "x <- c ;; k" := (bind c (fun x => k))
  (at level 61, c at next level, right associativity).
Notation "' pat <- c ;; k" := (bind c (fun x => match x with pat => k end))
  (at level 61, pat pattern, c at next level, right associativity).

Definition log (c : call) (w : world) : world :=
  mkWorld (calls w ++ [c]) (rng w).

(** [yf.download(tickers, start=start_date, auto_adjust=True)['Close']]. *)
Definition yf_download (tickers : list string) (start : string)
  : M Pd.DataFrame :=
  fun w => (market_data tickers start, log (Download tickers start) w).

(** [sco.minimize(fun, x0, args=..., method=..., bounds=..., constraints=...)]. *)
Definition sco_minimize (p : problem) : M OptimizeResult :=
  fun w => (slsqp p, log (Minimize p) w).

(** [n] successive draws of the generator. *)
Fixpoint draw (n : nat) (g : G) : list num * G :=
  match n with
  | O => ([], g)
  | S n' =>
      let (v, g1) := random_sample g in
      let (vs, g2) := draw n' g1 in
      (Num v :: vs, g2)
  end.

(** [np.random.random(n)]. *)
Definition np_random_random (n : nat) : M (list num) :=
  fun w => let (a, g) := draw n (rng w) in (Ok a, mkWorld (calls w) g).

(** [pd.DataFrame({'Stock': stocks, 'Recommended Mix': mix})]: pandas
    refuses columns of different lengths. *)
Definition new_table (stocks mix : list string) : M Table :=
  if (length stocks =? length mix)%nat then ret (combine stocks mix)
  else raise (ValueError unequal_lengths_message).

(** [n * [1. / n]]: the float division of Python raises on zero. *)
Definition uniform_guess (n : nat) : M (list num) :=
  match n with
  | O => raise (ZeroDivisionError "float division by zero")
  | S _ => ret (repeat (Num (1 / INR n)) n)
  end.

(** The nested function of the source, lines 84-88. *)
Definition negative_sharpe_ratio (weights mean_returns : list num)
  (cov_matrix : list (list num)) (risk_free_rate : num) : num :=
  let p_return := Np.dot weights mean_returns in
  let p_volatility :=
    Np.sqrt (Np.dot weights (Np.matvec cov_matrix weights)) in
  (- (p_return - risk_free_rate) / (p_volatility + epsilon))%num.

(** Default value of the parameter [risk_free_rate]. *)
Definition risk_free_default : num := Num 0.

Definition num_portfolios : nat := 10000.

(** The loop of lines 101-105, [k] iterations left. *)
Fixpoint sample_portfolios (k num_assets : nat) (mean_returns : list num)
  (cov_matrix : list (list num)) (p_returns p_volatility : list num)
  : M (list num * list num) :=
  match k with
  | O => ret (p_returns, p_volatility)
  | S k' =>
      weights <- np_random_random num_assets ;;
      let weights := Np.div_scalar weights (Np.sum weights) in
      sample_portfolios k' num_assets mean_returns cov_matrix
        (p_returns ++ [Np.dot weights mean_returns])
        (p_volatility
           ++ [Np.sqrt (Np.dot weights (Np.matvec cov_matrix weights))])
  end.

(** The allocations of [k] successive iterations of the loop, as a function
    of the state of the generator, and the state the loop leaves. *)
Fixpoint allocations (k num_assets : nat) (g : G) : list (list num) :=
  match k with
  | O => []
  | S k' =>
      let (a, g') := draw num_assets g in
      Np.div_scalar a (Np.sum a) :: allocations k' num_assets g'
  end.

Fixpoint rng_after (k num_assets : nat) (g : G) : G :=
  match k with
  | O => g
  | S k' => rng_after k' num_assets (snd (draw num_assets g))
  end.

(** Return and risk of one allocation ([PerformanceMetrics] of the
    specification), as lines 104-105 and 108-109 compute them. *)
Definition portfolio_return (mean_returns weights : list num) : num :=
  Np.dot weights mean_returns.

Definition portfolio_risk (cov_matrix : list (list num))
  (weights : list num) : num :=
  Np.sqrt (Np.dot weights (Np.matvec cov_matrix weights)).

(** Line 71. *)
Definition parse_tickers (tickers_str : string) : list string :=
  map (fun ticker => Py.upper (Py.strip ticker))
      (Py.split ","%char tickers_str).

(** The condition of line 72: [not tickers or tickers_str == ''] (the
    empty string itself is written [EmptyString] here). *)
Definition ticker_list_empty (tickers : list string) (tickers_str : string)
  : bool :=
  match tickers with [] => true | _ :: _ => false end
  || String.eqb tickers_str EmptyString.

(** The condition of line 76; the downloaded object is a frame, so the
    [isinstance] test holds. *)
Definition data_invalid (data : Pd.DataFrame) (tickers : list string)
  : bool :=
  Pd.empty data || Pd.isnull_all_all data
  || negb (Pd.shape1 data =? length tickers)%nat.

(** Lines 79-81, as a function of the downloaded frame. *)
Definition returns_of (data : Pd.DataFrame) : Pd.CleanFrame :=
  Pd.dropna (Pd.pct_change data).

Definition mean_returns_of (data : Pd.DataFrame) : list num :=
  Pd.series_mul (Pd.mean (returns_of data)) trading_days.

Definition cov_matrix_of (data : Pd.DataFrame) : list (list num) :=
  Pd.frame_mul (Pd.cov (returns_of data)) trading_days.

(** Lines 84-95: the arguments of the call of the solver. *)
Definition sharpe_problem (mean_returns : list num)
  (cov_matrix : list (list num)) (num_assets : nat)
  (initial_guess : list num) : problem :=
  {| objective := fun weights =>
       negative_sharpe_ratio weights mean_returns cov_matrix
         risk_free_default;
     x0 := initial_guess;
     method := "SLSQP";
     bounds := map (fun _ => (Num 0, Num 1)) (seq 0 num_assets);
     constraints :=
       [ {| ctype := "eq";
            cfun := fun weights => (Np.sum weights - Num 1)%num |} ] |}.

(** The arguments of the call of the solver for a universe [tickers] that is
    not empty and its frame [data]. *)
Definition solver_call (tickers : list string) (data : Pd.DataFrame)
  : problem :=
  sharpe_problem (mean_returns_of data) (cov_matrix_of data)
    (length tickers)
    (repeat (Num (1 / INR (length tickers))) (length tickers)).

(** Lines 111-115. *)
Definition summary (opt_return opt_volatility opt_sharpe : num) : string :=
  ("Expected Yearly Return: " ++ format_percent opt_return ++ newline
   ++ "Expected Yearly Risk: " ++ format_percent opt_volatility ++ newline
   ++ "Return/Risk Ratio (Sharpe): " ++ format_fixed opt_sharpe)%string.

(** The body of the [try] block, lines 71-128. *)
Definition optimize_portfolio_try (tickers_str start_date : string)
  : M Output :=
  let tickers := parse_tickers tickers_str in
  if ticker_list_empty tickers tickers_str
  then raise (ValueError empty_tickers_message)
  else
    data <- yf_download tickers start_date ;;
    if data_invalid data tickers
    then raise (ValueError invalid_data_message)
    else
      let mean_returns := mean_returns_of data in
      let cov_matrix := cov_matrix_of data in
      let num_assets := length tickers in
      initial_guess <- uniform_guess num_assets ;;
      solution <- sco_minimize
        (sharpe_problem mean_returns cov_matrix num_assets initial_guess) ;;
      let optimal_weights := x solution in
      '(p_returns, p_volatility) <-
        sample_portfolios num_portfolios num_assets mean_returns cov_matrix
          [] [] ;;
      weights_df <- new_table tickers (map format_percent optimal_weights) ;;
      let opt_return := Np.dot optimal_weights mean_returns in
      let opt_volatility :=
        Np.sqrt (Np.dot optimal_weights
                   (Np.matvec cov_matrix optimal_weights)) in
      let opt_sharpe := (opt_return / (opt_volatility + epsilon))%num in
      let summary_str := summary opt_return opt_volatility opt_sharpe in
      let fig :=
        Scatter p_volatility p_returns
          (Np.div_arrays p_returns (Np.add_scalar p_volatility epsilon))
          opt_volatility opt_return in
      ret (fig, weights_df, summary_str).

(** What lines 97-128 return once the solver has answered [sol] and the
    generator was in state [g] when the sampling started. *)
Definition assembled (tickers : list string) (data : Pd.DataFrame)
  (sol : OptimizeResult) (g : G) : Output :=
  let mean_returns := mean_returns_of data in
  let cov_matrix := cov_matrix_of data in
  let cloud := allocations num_portfolios (length tickers) g in
  let p_returns := map (portfolio_return mean_returns) cloud in
  let p_volatility := map (portfolio_risk cov_matrix) cloud in
  let opt_return := portfolio_return mean_returns (x sol) in
  let opt_volatility := portfolio_risk cov_matrix (x sol) in
  (Scatter p_volatility p_returns
     (Np.div_arrays p_returns (Np.add_scalar p_volatility epsilon))
     opt_volatility opt_return,
   combine tickers (map format_percent (x sol)),
   summary opt_return opt_volatility
     (opt_return / (opt_volatility + epsilon))%num).

(** Lines 130-133: what the [except] clause returns. *)
Definition failure (e : exn) : Output :=
  (EmptyFigure, [], ("An error occurred: " ++ str e)%string).

(** [optimize_portfolio], lines 69-133. *)
Definition optimize_portfolio (tickers_str start_date : string)
  (w : world) : Output * world :=
  match optimize_portfolio_try tickers_str start_date w with
  | (Ok out, w') => (out, w')
  | (Raise e, w') => (failure e, w')
  end.

End Pipeline.

(* ================================================================== *)
(** * Further notions for stating properties of the run *)
(* ================================================================== *)

(** The state of the generator after [n] single draws. *)
Definition advance (G : Type) (random_sample : G -> R * G) (n : nat)
  (g : G) : G :=
  Nat.iter n (fun s => snd (random_sample s)) g.

(** [sep.join(pieces)] for a one-character separator. *)
Fixpoint join (sep : ascii) (pieces : list string) : string :=
  match pieces with
  | [] => EmptyString
  | [piece] => piece
  | piece :: rest => (piece ++ String sep (join sep rest))%string
  end.

(** Mean and covariance as the specification words them, on rows of
    returns without a missing value: [mean(r)] is the sum of a column over
    the number of rows, [cov(r)] the sum of the products of the deviations
    from the means over the number of rows less one. *)
Module Stat.

Local Open Scope R_scope.

Definition value (cell : num) : R :=
  match cell with
  | Num r => r
  | NaN => 0
  end.

Definition total (l : list R) : R := fold_right Rplus 0 l.

Definition mean (rs : list (list num)) (j : nat) : R :=
  total (map (fun row => value (nth j row NaN)) rs) / INR (length rs).

Definition covariance (rs : list (list num)) (j k : nat) : R :=
  total (map (fun row =>
                (value (nth j row NaN) - mean rs j)
                * (value (nth k row NaN) - mean rs k))
             rs)
  / (INR (length rs) - 1).

End Stat.

(** Line 79 in binary64, the arithmetic of the source: the cells are
    primitive floats, a missing price is the float [nan]. *)
Module B64.

Import PrimFloat.

Definition pct_cell (p q : float) : float := (p / q - 1)%float.

Fixpoint pct_row (cur prev : list float) : list float :=
  match cur, prev with
  | p :: cur', q :: prev' => pct_cell p q :: pct_row cur' prev'
  | _, _ => []
  end.

Fixpoint pct_rows (prev : list float) (rs : list (list float))
  : list (list float) :=
  match rs with
  | [] => []
  | r :: rs' => pct_row r prev :: pct_rows r rs'
  end.

(** [d.pct_change()] on the rows of a frame. *)
Definition pct_change (rows : list (list float)) : list (list float) :=
  match rows with
  | [] => []
  | r :: rs => map (fun _ => nan) r :: pct_rows r rs
  end.

(** [d.dropna()]. *)
Definition dropna (rows : list (list float)) : list (list float) :=
  filter (forallb (fun cell => negb (is_nan cell))) rows.

Definition returns_of (rows : list (list float)) : list (list float) :=
  dropna (pct_change rows).

(** All prices multiplied by the constant [c]. *)
Definition scale (c : float) (rows : list (list float))
  : list (list float) :=
  map (map (fun p => (c * p)%float)) rows.





End B64.

Module PerAsset.

(** Every price of column [j] multiplied by the [j]-th constant of [cs]:
    each asset quoted in a unit of its own. *)
Fixpoint scale_row (cs : list R) (row : list num) : list num :=
  match cs, row with
  | c :: cs', p :: row' => (Num c * p)%num :: scale_row cs' row'
  | _, _ => []
  end.

Definition scale_columns (cs : list R) (d : Pd.DataFrame) : Pd.DataFrame :=
  Pd.mkFrame (Pd.ncols d) (map (scale_row cs) (Pd.rows d)).

End PerAsset.

Module Scenario.

Local Open Scope R_scope.

(** Two days on which the provider has no price at all. *)
Definition all_missing : Pd.DataFrame :=
  Pd.mkFrame 1 [ [NaN]; [NaN] ].

(** A provider that cannot be reached. *)
Definition offline (tickers : list string) (start : string)
  : result Pd.DataFrame :=
  Raise (CollaboratorError "no connection").

(** A solver that gives up with an exception. *)
Definition broken_solver (p : problem) : result OptimizeResult :=
  Raise (CollaboratorError "solver failed").

(** Four days of prices of two assets; the second one never moves. *)
Definition flat_second : Pd.DataFrame :=
  Pd.mkFrame 2
    [ [Num 1; Num 5]; [Num 2; Num 5]; [Num 3; Num 5]; [Num 6; Num 5] ].

End Scenario.

(* ================================================================== *)
(** * Properties of the string operations *)
(* ================================================================== *)

Example split_keeps_empty_pieces :
  Py.split ","%char "aapl, msft ,,tsla"%string
  = ["aapl"; " msft "; EmptyString; "tsla"]%string.
Proof. reflexivity. Qed.

Example strip_both_ends : Py.strip "  a b  "%string = "a b"%string.
Proof. reflexivity. Qed.

Example upper_letters_only : Py.upper "brk.b"%string = "BRK.B"%string.
Proof. reflexivity. Qed.

Lemma split_not_nil (sep : ascii) (s : string) : Py.split sep s <> [].
Proof.
  destruct s as [|c s]; simpl; [discriminate|].
  destruct (Ascii.eqb c sep); [discriminate|].
  destruct (Py.split sep s); discriminate.
Qed.

Lemma parse_tickers_not_nil (s : string) : parse_tickers s <> [].
Proof.
  unfold parse_tickers. intro H. apply map_eq_nil in H.
  exact (split_not_nil _ _ H).
Qed.

(** The test of line 72 holds for the empty string and for no other. *)
Lemma ticker_list_empty_iff (s : string) :
  ticker_list_empty (parse_tickers s) s = true <-> s = EmptyString.
Proof.
  unfold ticker_list_empty.
  destruct (parse_tickers s) eqn:E.
  - exfalso. exact (parse_tickers_not_nil s E).
  - simpl. apply String.eqb_eq.
Qed.

Lemma lstrip_blank (s : string) : Py.blank s -> Py.lstrip s = EmptyString.
Proof.
  unfold Py.blank. induction s as [|c s IH]; simpl; intros H; [reflexivity|].
  inversion H as [|? ? Hc Hs]; subst. rewrite Hc. auto.
Qed.

Lemma strip_blank (s : string) : Py.blank s -> Py.strip s = EmptyString.
Proof.
  intros H. unfold Py.strip. rewrite (lstrip_blank H). reflexivity.
Qed.

Lemma comma_not_space : Py.isspace ","%char = false.
Proof. reflexivity. Qed.

(** Pieces of a string of commas and white space are blank, and there is one
    more piece than there are commas. *)
Lemma split_commas_and_spaces (s : string) :
  Forall (fun c => c = ","%char \/ Py.isspace c = true) (Py.chars s) ->
  Forall Py.blank (Py.split ","%char s).
Proof.
  induction s as [|c s IH]; simpl; intros H.
  - repeat constructor.
  - inversion H as [|? ? Hc Hs]; subst. specialize (IH Hs).
    destruct (Ascii.eqb c ",") eqn:E.
    + constructor; [constructor | exact IH].
    + destruct Hc as [Hc|Hc]; [subst; rewrite Ascii.eqb_refl in E; discriminate|].
      destruct (Py.split "," s) as [|piece pieces].
      * repeat constructor. exact Hc.
      * inversion IH; subst. constructor; [|assumption].
        constructor; assumption.
Qed.

Lemma length_split_commas (s : string) :
  length (Py.split ","%char s) = S (Py.count ","%char s).
Proof.
  induction s as [|c s IH]; simpl; [reflexivity|].
  destruct (Ascii.eqb c ","); simpl.
  - now rewrite IH.
  - destruct (Py.split "," s); simpl in *; [discriminate | exact IH].
Qed.

Lemma parse_tickers_blank (s : string) :
  Forall (fun c => c = ","%char \/ Py.isspace c = true) (Py.chars s) ->
  parse_tickers s = repeat EmptyString (S (Py.count ","%char s)).
Proof.
  intros H. unfold parse_tickers.
  rewrite <- length_split_commas.
  pose proof (split_commas_and_spaces s H) as Hb.
  induction Hb as [|piece pieces Hp _ IH]; simpl; [reflexivity|].
  rewrite (strip_blank Hp). simpl. now rewrite IH.
Qed.

Lemma upper_char_idem (c : ascii) :
  Py.upper_char (Py.upper_char c) = Py.upper_char c.
Proof. destruct c as [[] [] [] [] [] [] [] []]; reflexivity. Qed.

Lemma isspace_upper_char (c : ascii) :
  Py.isspace (Py.upper_char c) = Py.isspace c.
Proof. destruct c as [[] [] [] [] [] [] [] []]; reflexivity. Qed.

Lemma upper_idem (s : string) : Py.upper (Py.upper s) = Py.upper s.
Proof.
  induction s as [|c s IH]; simpl; [reflexivity|].
  now rewrite upper_char_idem, IH.
Qed.

Lemma lstrip_upper (s : string) :
  Py.lstrip (Py.upper s) = Py.upper (Py.lstrip s).
Proof.
  induction s as [|c s IH]; simpl; [reflexivity|].
  rewrite isspace_upper_char. destruct (Py.isspace c); [exact IH | reflexivity].
Qed.

Lemma rstrip_upper (s : string) :
  Py.rstrip (Py.upper s) = Py.upper (Py.rstrip s).
Proof.
  induction s as [|c s IH]; simpl; [reflexivity|].
  rewrite IH, isspace_upper_char.
  destruct (Py.rstrip s); simpl; [destruct (Py.isspace c)|]; reflexivity.
Qed.

Lemma strip_upper (s : string) :
  Py.strip (Py.upper s) = Py.upper (Py.strip s).
Proof. unfold Py.strip. now rewrite lstrip_upper, rstrip_upper. Qed.

Lemma rstrip_idem (s : string) : Py.rstrip (Py.rstrip s) = Py.rstrip s.
Proof.
  induction s as [|c s IH]; simpl; [reflexivity|].
  destruct (Py.rstrip s) as [|d r] eqn:E.
  - destruct (Py.isspace c) eqn:Ec; simpl; [reflexivity|].
    now rewrite Ec.
  - change (Py.rstrip (String c (String d r))) with
      (match Py.rstrip (String d r) with
       | EmptyString =>
           if Py.isspace c then EmptyString else String c EmptyString
       | q => String c q
       end).
    now rewrite IH.
Qed.

(** What [lstrip] returns does not start with white space. *)
Lemma lstrip_head (s : string) :
  Py.lstrip s = EmptyString
  \/ exists c r, Py.lstrip s = String c r /\ Py.isspace c = false.
Proof.
  induction s as [|c s IH]; simpl; [now left|].
  destruct (Py.isspace c) eqn:E; [exact IH|].
  right. now exists c, s.
Qed.

Lemma lstrip_rstrip_lstrip (s : string) :
  Py.lstrip (Py.rstrip (Py.lstrip s)) = Py.rstrip (Py.lstrip s).
Proof.
  destruct (lstrip_head s) as [H | (c & r & H & Hc)]; rewrite H.
  - reflexivity.
  - simpl. destruct (Py.rstrip r); rewrite ?Hc; simpl; rewrite Hc; reflexivity.
Qed.

Lemma strip_idem (s : string) : Py.strip (Py.strip s) = Py.strip s.
Proof.
  unfold Py.strip. now rewrite lstrip_rstrip_lstrip, rstrip_idem.
Qed.

(** Every ticker of the parsed list is trimmed and in upper case. *)
Lemma parse_tickers_normal (s t : string) :
  In t (parse_tickers s) -> Py.strip t = t /\ Py.upper t = t.
Proof.
  unfold parse_tickers. rewrite in_map_iff. intros (piece & <- & _).
  split.
  - now rewrite strip_upper, strip_idem.
  - apply upper_idem.
Qed.

(* ================================================================== *)
(** * Properties of the arithmetic *)
(* ================================================================== *)

Section Arithmetic.

Local Open Scope R_scope.

Lemma map_const_repeat (A B : Type) (b : B) (l : list A) :
  map (fun _ => b) l = repeat b (length l).
Proof. induction l; simpl; congruence. Qed.

Lemma sum_map_Num (v : list R) : Np.sum (map Num v) = Num (Pd.Rsum v).
Proof. induction v as [|a v IH]; simpl; [reflexivity | now rewrite IH]. Qed.

Lemma Rsum_repeat (a : R) (k : nat) : Pd.Rsum (repeat a k) = INR k * a.
Proof.
  induction k as [|k IH]; [simpl; lra|].
  rewrite S_INR. simpl. rewrite IH. lra.
Qed.

Lemma map_repeat (A B : Type) (f : A -> B) (a : A) (k : nat) :
  map f (repeat a k) = repeat (f a) k.
Proof. induction k; simpl; congruence. Qed.

(** The uniform allocation is fully invested. *)
Lemma sum_uniform (n : nat) :
  n <> 0%nat -> Np.sum (repeat (Num (1 / INR n)) n) = Num 1.
Proof.
  intros Hn. rewrite <- map_repeat, sum_map_Num, Rsum_repeat.
  f_equal. field. now apply not_0_INR.
Qed.

Lemma Rsum_map_div (s : R) (v : list R) :
  Pd.Rsum (map (fun r => r / s) v) = Pd.Rsum v / s.
Proof.
  induction v as [|a v IH]; simpl; [unfold Rdiv; lra|].
  rewrite IH. unfold Rdiv. lra.
Qed.

(** Dividing real draws by their sum, when it is not zero. *)
Lemma div_scalar_reals (v : list R) :
  Pd.Rsum v <> 0 ->
  Np.div_scalar (map Num v) (Np.sum (map Num v))
  = map (fun r => Num (r / Pd.Rsum v)) v.
Proof.
  intros Hs. unfold Np.div_scalar. rewrite sum_map_Num, map_map.
  apply map_ext. intros r. simpl.
  destruct (Req_dec_T (Pd.Rsum v) 0); [contradiction | reflexivity].
Qed.

Lemma sum_normalized (v : list R) :
  Pd.Rsum v <> 0 -> Np.sum (map (fun r => Num (r / Pd.Rsum v)) v) = Num 1.
Proof.
  intros Hs.
  rewrite <- (map_map (fun r => r / Pd.Rsum v) Num), sum_map_Num, Rsum_map_div.
  f_equal. now field.
Qed.

(** With all draws zero the quotient is not a number. *)
Lemma div_scalar_zero_sum (v : list R) :
  Pd.Rsum v = 0 ->
  Np.div_scalar (map Num v) (Np.sum (map Num v)) = map (fun _ => NaN) v.
Proof.
  intros Hs. unfold Np.div_scalar. rewrite sum_map_Num, map_map.
  apply map_ext. intros r. simpl.
  destruct (Req_dec_T (Pd.Rsum v) 0); [reflexivity | contradiction].
Qed.

Lemma dot_reals (a b : list R) :
  Np.dot (map Num a) (map Num b) = Num (Spec.dot a b).
Proof.
  revert b. induction a as [|x a IH]; intros [|y b]; simpl; try reflexivity.
  now rewrite IH.
Qed.

Lemma matvec_reals (C : list (list R)) (w : list R) :
  Np.matvec (map (map Num) C) (map Num w)
  = map Num (map (fun row => Spec.dot row w) C).
Proof.
  unfold Np.matvec. rewrite !map_map. apply map_ext. intros row.
  apply dot_reals.
Qed.

(** On real weights and a real model whose quadratic form is not negative,
    the objective of the source is the formula of the specification. *)
Lemma negative_sharpe_ratio_reals (w m : list R) (C : list (list R)) :
  0 <= Spec.quadratic C w ->
  negative_sharpe_ratio (map Num w) (map Num m) (map (map Num) C)
    risk_free_default
  = Num (Spec.negative_sharpe w m C).
Proof.
  intros Hq. unfold negative_sharpe_ratio, Spec.negative_sharpe.
  rewrite matvec_reals, !dot_reals. fold (Spec.quadratic C w).
  unfold risk_free_default, epsilon. simpl.
  destruct (Rlt_dec (Spec.quadratic C w) 0) as [H|H]; [lra|]. simpl.
  pose proof (sqrt_pos (Spec.quadratic C w)) as Hs.
  destruct (Req_dec_T (sqrt (Spec.quadratic C w) + 1e-9) 0) as [E|E];
    [lra | reflexivity].
Qed.

Lemma ncols_pct_change (d : Pd.DataFrame) :
  Pd.ncols (Pd.pct_change d) = Pd.ncols d.
Proof. unfold Pd.pct_change. destruct (Pd.rows d); reflexivity. Qed.

Lemma cncols_returns_of (d : Pd.DataFrame) :
  Pd.cncols (returns_of d) = Pd.ncols d.
Proof. unfold returns_of, Pd.dropna. simpl. apply ncols_pct_change. Qed.

Lemma length_column (j : nat) (c : Pd.CleanFrame) :
  length (Pd.column j c) = length (Pd.crows c).
Proof. unfold Pd.column. apply length_map. Qed.

(** With fewer than two rows every covariance is undefined. *)
Lemma cov_short (c : Pd.CleanFrame) :
  (length (Pd.crows c) < 2)%nat ->
  Pd.cov c = repeat (repeat NaN (Pd.cncols c)) (Pd.cncols c).
Proof.
  intros H. unfold Pd.cov.
  transitivity
    (map (fun _ : nat => map (fun _ : nat => NaN) (seq 0 (Pd.cncols c)))
         (seq 0 (Pd.cncols c))).
  2: now rewrite !map_const_repeat, !length_seq.
  apply map_ext. intros j. apply map_ext. intros k.
  unfold Pd.column_cov. rewrite length_column.
  apply Nat.ltb_lt in H. now rewrite H.
Qed.

Lemma cov_matrix_short (d : Pd.DataFrame) :
  (length (Pd.crows (returns_of d)) < 2)%nat ->
  cov_matrix_of d = repeat (repeat NaN (Pd.ncols d)) (Pd.ncols d).
Proof.
  intros H. unfold cov_matrix_of. rewrite (cov_short _ H), cncols_returns_of.
  unfold Pd.frame_mul, Pd.series_mul. rewrite !map_repeat. reflexivity.
Qed.

End Arithmetic.

(* ================================================================== *)
(** * The pipeline, case by case *)
(* ================================================================== *)

Section PipelineFacts.

Variable G : Type.
Variable market_data : list string -> string -> result Pd.DataFrame.
Variable slsqp : problem -> result OptimizeResult.
Variable random_sample : G -> R * G.
Variable format_percent : num -> string.
Variable format_fixed : num -> string.

Local Notation "'run'" :=
  (optimize_portfolio market_data slsqp random_sample
     format_percent format_fixed).
Local Notation "'try_block'" :=
  (optimize_portfolio_try market_data slsqp random_sample
     format_percent format_fixed).
Local Notation "'sample'" := (sample_portfolios random_sample).
Local Notation "'cloud'" := (allocations random_sample).
Local Notation "'result_of'" :=
  (assembled random_sample format_percent format_fixed).

Local Opaque num_portfolios.

Lemma uniform_guess_pos (n : nat) :
  n <> 0%nat ->
  @uniform_guess G n = ret (repeat (Num (1 / INR n)) n).
Proof. destruct n; [congruence | reflexivity]. Qed.

(** The loop of the sampler computes the return and the risk of the
    allocations it draws, touches the generator only, and cannot fail. *)
Lemma sample_portfolios_eq (k n : nat) (mean_returns : list num)
  (cov_matrix : list (list num)) (p_returns p_volatility : list num)
  (w : world G) :
  sample k n mean_returns cov_matrix p_returns p_volatility w
  = (Ok (p_returns ++ map (portfolio_return mean_returns) (cloud k n (rng w)),
         p_volatility ++ map (portfolio_risk cov_matrix) (cloud k n (rng w))),
     mkWorld (calls w) (rng_after random_sample k n (rng w))).
Proof.
  revert p_returns p_volatility w.
  induction k as [|k IH]; intros p_returns p_volatility w.
  - simpl. rewrite !app_nil_r. destruct w; reflexivity.
  - cbn [sample_portfolios allocations rng_after].
    unfold bind, np_random_random.
    destruct (draw random_sample n (rng w)) as [a g] eqn:E.
    rewrite IH. cbn [calls rng snd map].
    rewrite <- !app_assoc. reflexivity.
Qed.

(** The [try] block as a decision tree over the answers of the
    collaborators. *)
Lemma try_block_eq (tickers_str start_date : string) (w : world G) :
  try_block tickers_str start_date w
  = let tickers := parse_tickers tickers_str in
    if ticker_list_empty tickers tickers_str
    then (Raise (ValueError empty_tickers_message), w)
    else
      let w1 := log (Download tickers start_date) w in
      match market_data tickers start_date with
      | Raise e => (Raise e, w1)
      | Ok data =>
          if data_invalid data tickers
          then (Raise (ValueError invalid_data_message), w1)
          else
            let p := solver_call tickers data in
            match slsqp p with
            | Raise e => (Raise e, log (Minimize p) w1)
            | Ok sol =>
                let w3 :=
                  mkWorld (calls w ++ [Download tickers start_date; Minimize p])
                    (rng_after random_sample num_portfolios
                       (length tickers) (rng w)) in
                if (length tickers =? length (x sol))%nat
                then (Ok (result_of tickers data sol (rng w)), w3)
                else (Raise (ValueError unequal_lengths_message), w3)
            end
      end.
Proof.
  unfold optimize_portfolio_try.
  cbv zeta.
  destruct (ticker_list_empty (parse_tickers tickers_str) tickers_str) eqn:Eg;
    [reflexivity|].
  unfold bind at 1. unfold yf_download at 1.
  destruct (market_data (parse_tickers tickers_str) start_date) as [data|e];
    [|reflexivity].
  destruct (data_invalid data (parse_tickers tickers_str)); [reflexivity|].
  assert (Hn : length (parse_tickers tickers_str) <> 0%nat).
  { intro H. apply length_zero_iff_nil in H.
    exact (parse_tickers_not_nil _ H). }
  unfold bind at 1. rewrite (uniform_guess_pos Hn). unfold ret at 1.
  unfold bind at 1. unfold sco_minimize at 1.
  fold (solver_call (parse_tickers tickers_str) data).
  destruct (slsqp (solver_call (parse_tickers tickers_str) data)) as [sol|e];
    [|reflexivity].
  unfold bind at 1. rewrite sample_portfolios_eq.
  unfold bind at 1. unfold new_table. rewrite length_map.
  cbn [calls rng log]. rewrite <- app_assoc. cbn [app].
  destruct (length (parse_tickers tickers_str) =? length (x sol))%nat;
    reflexivity.
Qed.

(** [optimize_portfolio] as a decision tree. *)
Lemma optimize_portfolio_eq (tickers_str start_date : string) (w : world G) :
  run tickers_str start_date w
  = let tickers := parse_tickers tickers_str in
    if ticker_list_empty tickers tickers_str
    then (failure (ValueError empty_tickers_message), w)
    else
      let w1 := log (Download tickers start_date) w in
      match market_data tickers start_date with
      | Raise e => (failure e, w1)
      | Ok data =>
          if data_invalid data tickers
          then (failure (ValueError invalid_data_message), w1)
          else
            let p := solver_call tickers data in
            match slsqp p with
            | Raise e => (failure e, log (Minimize p) w1)
            | Ok sol =>
                let w3 :=
                  mkWorld (calls w ++ [Download tickers start_date; Minimize p])
                    (rng_after random_sample num_portfolios
                       (length tickers) (rng w)) in
                if (length tickers =? length (x sol))%nat
                then (result_of tickers data sol (rng w), w3)
                else (failure (ValueError unequal_lengths_message), w3)
            end
      end.
Proof.
  unfold optimize_portfolio. rewrite try_block_eq. cbv zeta.
  destruct (ticker_list_empty _ _); [reflexivity|].
  destruct (market_data _ _) as [data|e]; [|reflexivity].
  destruct (data_invalid _ _); [reflexivity|].
  destruct (slsqp _) as [sol|e]; [|reflexivity].
  destruct (_ =? _)%nat; reflexivity.
Qed.

(** The run on a universe and a frame that pass both checks, once the
    solver has answered with a vector of the right length. *)
Lemma optimize_portfolio_done (tickers_str start_date : string)
  (w : world G) (data : Pd.DataFrame) (sol : OptimizeResult) :
  tickers_str <> EmptyString ->
  market_data (parse_tickers tickers_str) start_date = Ok data ->
  data_invalid data (parse_tickers tickers_str) = false ->
  slsqp (solver_call (parse_tickers tickers_str) data) = Ok sol ->
  length (x sol) = length (parse_tickers tickers_str) ->
  run tickers_str start_date w
  = (result_of (parse_tickers tickers_str) data sol (rng w),
     mkWorld
       (calls w ++ [Download (parse_tickers tickers_str) start_date;
                    Minimize (solver_call (parse_tickers tickers_str) data)])
       (rng_after random_sample num_portfolios
          (length (parse_tickers tickers_str)) (rng w))).
Proof.
  intros Hs Hd Hv Hsol Hlen.
  rewrite optimize_portfolio_eq. cbv zeta.
  destruct (ticker_list_empty _ _) eqn:Eg.
  - apply ticker_list_empty_iff in Eg. contradiction.
  - rewrite Hd, Hv, Hsol, Hlen, Nat.eqb_refl. reflexivity.
Qed.

Lemma length_allocations (k n : nat) (g : G) : length (cloud k n g) = k.
Proof.
  revert g. induction k as [|k IH]; intros g; simpl; [reflexivity|].
  destruct (draw random_sample n g). simpl. now rewrite IH.
Qed.

Lemma failure_not_assembled (e : exn) (tickers : list string)
  (data : Pd.DataFrame) (sol : OptimizeResult) (g : G) :
  result_of tickers data sol g <> failure e.
Proof. unfold assembled, failure. intro H. inversion H. Qed.

(* ------------------------------------------------------------------ *)
(** ** Claims about the validation of the input and the error boundary *)
(* ------------------------------------------------------------------ *)

(** C7.  On the empty ticker string the run ends in the failure result
    whose text is the message of the empty-list [ValueError]; the state is
    the one it started from, so no call of the market-data collaborator (nor
    of any other) has been made. *)
Theorem empty_string_fails_before_any_fetch (start_date : string)
  (w : world G) :
  run EmptyString start_date w
  = ((EmptyFigure, [],
      "An error occurred: Ticker list cannot be empty."%string), w)
  /\ calls (snd (run EmptyString start_date w)) = calls w.
Proof.
  rewrite optimize_portfolio_eq. split; reflexivity.
Qed.

(** C10.  Splitting on commas never yields the empty list, so the test of
    line 72 holds for the empty string only; a string that is not empty and
    holds nothing but commas and white space passes it, its universe is a
    list of blank symbols, one more than there are commas, and the download
    is called with that list. *)
Theorem blank_input_reaches_the_download (tickers_str start_date : string)
  (w : world G) :
  tickers_str <> EmptyString ->
  Forall (fun c => c = ","%char \/ Py.isspace c = true)
         (Py.chars tickers_str) ->
  (forall s, Py.split ","%char s <> [])
  /\ (forall s, ticker_list_empty (parse_tickers s) s = true
                <-> s = EmptyString)
  /\ ticker_list_empty (parse_tickers tickers_str) tickers_str = false
  /\ parse_tickers tickers_str
     = repeat EmptyString (S (Py.count ","%char tickers_str))
  /\ exists later,
       calls (snd (run tickers_str start_date w))
       = calls w
         ++ Download (repeat EmptyString (S (Py.count ","%char tickers_str)))
                     start_date
         :: later.
Proof.
  intros Hne Hchars.
  assert (Hg : ticker_list_empty (parse_tickers tickers_str) tickers_str
               = false).
  { destruct (ticker_list_empty _ _) eqn:E; [|reflexivity].
    apply ticker_list_empty_iff in E. contradiction. }
  split; [exact (split_not_nil ","%char)|].
  split; [exact ticker_list_empty_iff|].
  split; [exact Hg|].
  split; [exact (parse_tickers_blank _ Hchars)|].
  rewrite optimize_portfolio_eq. cbv zeta. rewrite Hg.
  rewrite <- (parse_tickers_blank _ Hchars).
  destruct (market_data _ _) as [data|e]; [|now exists []].
  destruct (data_invalid _ _); [now exists []|].
  destruct (slsqp _) as [sol|e].
  - destruct (_ =? _)%nat; eexists; reflexivity.
  - cbn [snd log calls]. rewrite <- app_assoc. eexists; reflexivity.
Qed.

(** C4.  Whatever the collaborators answer, [optimize_portfolio] returns a
    triple.  When the [try] block raises [e], the triple is the empty
    figure, the table without rows and the text made of the fixed prefix and
    of the message of [e]; otherwise it is the result of the block, a scatter
    figure of [num_portfolios] points with one table row per ticker. *)
Theorem every_error_becomes_a_failure_result (tickers_str start_date : string)
  (w : world G) :
  (exists e w',
      try_block tickers_str start_date w = (Raise e, w')
      /\ run tickers_str start_date w
         = ((EmptyFigure, [], ("An error occurred: " ++ str e)%string), w'))
  \/ (exists cloud_x cloud_y cloud_c star_x star_y table text w',
        try_block tickers_str start_date w
        = (Ok (Scatter cloud_x cloud_y cloud_c star_x star_y, table, text), w')
        /\ run tickers_str start_date w
           = ((Scatter cloud_x cloud_y cloud_c star_x star_y, table, text), w')
        /\ length cloud_x = num_portfolios
        /\ length cloud_y = num_portfolios
        /\ length table = length (parse_tickers tickers_str)).
Proof.
  unfold optimize_portfolio. rewrite try_block_eq. cbv zeta.
  destruct (ticker_list_empty _ _); [left; eauto|].
  destruct (market_data _ _) as [data|e]; [|left; eauto].
  destruct (data_invalid _ _); [left; eauto|].
  destruct (slsqp _) as [sol|e]; [|left; eauto].
  destruct (_ =? _)%nat eqn:El; [|left; eauto].
  right. apply Nat.eqb_eq in El. unfold assembled.
  do 8 eexists. split; [reflexivity|]. split; [reflexivity|].
  rewrite !length_map, length_allocations, length_combine, length_map, <- El.
  repeat split. apply Nat.min_id.
Qed.

(** C9 (amended).  The universe is the list of the comma-separated pieces
    in their order, each trimmed and put in upper case; nothing removes a
    repeated symbol.  When the frame that was downloaded has a number of
    columns other than the size of the universe, the run ends in the failure
    result of line 77 right after the download: the solver is not called and
    the generator is not used. *)
Theorem universe_is_normalized_and_checked_against_columns
  (tickers_str start_date : string) (w : world G) (data : Pd.DataFrame) :
  tickers_str <> EmptyString ->
  market_data (parse_tickers tickers_str) start_date = Ok data ->
  Pd.shape1 data <> length (parse_tickers tickers_str) ->
  parse_tickers tickers_str
  = map (fun piece => Py.upper (Py.strip piece))
        (Py.split ","%char tickers_str)
  /\ (forall t, In t (parse_tickers tickers_str) ->
                Py.strip t = t /\ Py.upper t = t)
  /\ run tickers_str start_date w
     = ((EmptyFigure, [],
         "An error occurred: Could not download valid data for all tickers. Please check the company symbols."%string),
        mkWorld
          (calls w ++ [Download (parse_tickers tickers_str) start_date])
          (rng w)).
Proof.
  intros Hne Hd Hcols.
  split; [reflexivity|].
  split; [intros t; apply parse_tickers_normal|].
  rewrite optimize_portfolio_eq. cbv zeta.
  destruct (ticker_list_empty _ _) eqn:Eg.
  - apply ticker_list_empty_iff in Eg. contradiction.
  - rewrite Hd. unfold data_invalid.
    apply Nat.eqb_neq in Hcols. rewrite Hcols. cbn [negb].
    rewrite !orb_true_r. reflexivity.
Qed.

(* ------------------------------------------------------------------ *)
(** ** Claims about the optimizer *)
(* ------------------------------------------------------------------ *)

Lemma total_Rsum (l : list R) : Stat.total l = Pd.Rsum l.
Proof.
  induction l as [|a l IH]; [reflexivity|].
  cbn [Pd.Rsum]. rewrite <- IH. reflexivity.
Qed.

Lemma risk_reals (xs : list R) (C : list (list R)) :
  (0 <= Spec.quadratic C xs)%R ->
  Np.sqrt (Np.dot (map Num xs) (Np.matvec (map (map Num) C) (map Num xs)))
  = Num (sqrt (Spec.quadratic C xs)).
Proof.
  intros Hq. rewrite matvec_reals, dot_reals. fold (Spec.quadratic C xs).
  simpl. destruct (Rlt_dec (Spec.quadratic C xs) 0); [lra | reflexivity].
Qed.

(** C1.  On a universe and a frame that pass the checks, the solver is
    called once.  Its objective is, for a real mean vector [m], a real
    covariance matrix [C] and real weights [w] with [w^T C w >= 0], the
    number [-(w . m - 0) / (sqrt (w^T C w) + 1e-9)]; its single constraint
    is the equality constraint on [sum w - 1]; its bounds are [(0, 1)] for
    each of the N weights and its starting point is N times [1/N].  The
    vector [x] of its answer is what the table is made of, as it is, and the
    highlighted point is the risk and the return of that vector. *)
Theorem optimizer_calls_solver_on_negative_sharpe
  (tickers_str start_date : string) (w : world G) (data : Pd.DataFrame)
  (sol : OptimizeResult) :
  tickers_str <> EmptyString ->
  market_data (parse_tickers tickers_str) start_date = Ok data ->
  data_invalid data (parse_tickers tickers_str) = false ->
  slsqp (solver_call (parse_tickers tickers_str) data) = Ok sol ->
  length (x sol) = length (parse_tickers tickers_str) ->
  let tickers := parse_tickers tickers_str in
  let n := length tickers in
  let p := solver_call tickers data in
  calls (snd (run tickers_str start_date w))
  = calls w ++ [Download tickers start_date; Minimize p]
  /\ (forall (m weights : list R) (C : list (list R)),
        mean_returns_of data = map Num m ->
        cov_matrix_of data = map (map Num) C ->
        (0 <= Spec.quadratic C weights)%R ->
        objective p (map Num weights)
        = Num (- (Spec.dot weights m - 0)
               / (sqrt (Spec.quadratic C weights) + 1e-9)))
  /\ (exists c, constraints p = [c] /\ ctype c = "eq"%string
                /\ forall weights : list R,
                     cfun c (map Num weights)
                     = Num (Stat.total weights - 1))
  /\ bounds p = repeat (Num 0, Num 1) n
  /\ x0 p = repeat (Num (1 / INR n)) n
  /\ snd (fst (fst (run tickers_str start_date w)))
     = combine tickers (map format_percent (x sol))
  /\ (forall (m xs : list R) (C : list (list R)),
        mean_returns_of data = map Num m ->
        cov_matrix_of data = map (map Num) C ->
        x sol = map Num xs ->
        (0 <= Spec.quadratic C xs)%R ->
        exists cloud_x cloud_y cloud_c text,
          fst (run tickers_str start_date w)
          = (Scatter cloud_x cloud_y cloud_c
               (Num (sqrt (Spec.quadratic C xs)))
               (Num (Spec.dot xs m)),
             combine tickers (map format_percent (x sol)),
             text)).
Proof.
  intros Hne Hd Hv Hsol Hlen. cbv zeta.
  rewrite (optimize_portfolio_done w Hne Hd Hv Hsol Hlen).
  split; [reflexivity|].
  split.
  { intros m weights C Hm HC Hq.
    cbn [solver_call sharpe_problem objective]. rewrite Hm, HC.
    rewrite (@negative_sharpe_ratio_reals weights m C Hq). reflexivity. }
  split.
  { eexists. split; [reflexivity|]. split; [reflexivity|].
    intros weights. cbn [cfun]. rewrite sum_map_Num.
    rewrite <- total_Rsum. reflexivity. }
  split.
  { cbn [solver_call sharpe_problem bounds].
    rewrite map_const_repeat, length_seq. reflexivity. }
  split; [reflexivity|].
  split; [reflexivity|].
  intros m xs C Hm HC Hx Hq. unfold assembled, portfolio_risk, portfolio_return.
  rewrite Hm, HC, Hx, (@risk_reals xs C Hq), dot_reals.
  do 4 eexists. reflexivity.
Qed.

(** C3 (amended).  A solver that returns without raising, reporting that it
    has not converged, does not make the run fail: its vector is used as the
    optimal allocation exactly as a converged one would be. *)
Theorem unconverged_solution_is_used
  (tickers_str start_date : string) (w : world G) (data : Pd.DataFrame)
  (sol : OptimizeResult) :
  tickers_str <> EmptyString ->
  market_data (parse_tickers tickers_str) start_date = Ok data ->
  data_invalid data (parse_tickers tickers_str) = false ->
  slsqp (solver_call (parse_tickers tickers_str) data) = Ok sol ->
  length (x sol) = length (parse_tickers tickers_str) ->
  success sol = false ->
  fst (run tickers_str start_date w)
  = result_of (parse_tickers tickers_str) data
      (mkSolution (x sol) true) (rng w)
  /\ snd (fst (fst (run tickers_str start_date w)))
     = combine (parse_tickers tickers_str) (map format_percent (x sol))
  /\ forall e, fst (run tickers_str start_date w) <> failure e.
Proof.
  intros Hne Hd Hv Hsol Hlen _.
  rewrite (optimize_portfolio_done w Hne Hd Hv Hsol Hlen). cbn [fst].
  split; [reflexivity|]. split; [reflexivity|].
  intros e. apply failure_not_assembled.
Qed.

(* ------------------------------------------------------------------ *)
(** ** Claims about the return model inside the pipeline *)
(* ------------------------------------------------------------------ *)

(** C6 (amended).  When fewer than two rows of returns are left, nothing
    is raised: every entry of the covariance matrix is [NaN], and the solver
    is called with the problem built on that matrix. *)
Theorem short_history_is_passed_to_the_solver
  (tickers_str start_date : string) (w : world G) (data : Pd.DataFrame) :
  tickers_str <> EmptyString ->
  market_data (parse_tickers tickers_str) start_date = Ok data ->
  data_invalid data (parse_tickers tickers_str) = false ->
  (length (Pd.crows (returns_of data)) < 2)%nat ->
  cov_matrix_of data = repeat (repeat NaN (Pd.ncols data)) (Pd.ncols data)
  /\ calls (snd (run tickers_str start_date w))
     = calls w
       ++ [Download (parse_tickers tickers_str) start_date;
           Minimize
             (sharpe_problem (mean_returns_of data)
                (repeat (repeat NaN (Pd.ncols data)) (Pd.ncols data))
                (length (parse_tickers tickers_str))
                (repeat (Num (1 / INR (length (parse_tickers tickers_str))))
                        (length (parse_tickers tickers_str))))]
  /\ forall sol,
       slsqp (solver_call (parse_tickers tickers_str) data) = Ok sol ->
       length (x sol) = length (parse_tickers tickers_str) ->
       fst (run tickers_str start_date w)
       = result_of (parse_tickers tickers_str) data sol (rng w).
Proof.
  intros Hne Hd Hv Hshort.
  split; [exact (cov_matrix_short _ Hshort)|].
  split.
  - rewrite <- (cov_matrix_short _ Hshort).
    fold (solver_call (parse_tickers tickers_str) data).
    rewrite optimize_portfolio_eq. cbv zeta.
    destruct (ticker_list_empty _ _) eqn:Eg.
    { apply ticker_list_empty_iff in Eg. contradiction. }
    rewrite Hd, Hv.
    destruct (slsqp _) as [sol|e].
    + destruct (_ =? _)%nat; reflexivity.
    + cbn [snd log calls]. now rewrite <- app_assoc.
  - intros sol Hsol Hlen.
    now rewrite (optimize_portfolio_done w Hne Hd Hv Hsol Hlen).
Qed.

(* ------------------------------------------------------------------ *)
(** ** Claims about the sampler *)
(* ------------------------------------------------------------------ *)

Lemma length_draw (n : nat) (g : G) :
  length (fst (draw random_sample n g)) = n.
Proof.
  revert g. induction n as [|n IH]; intros g; simpl; [reflexivity|].
  destruct (random_sample g) as [v g1]. specialize (IH g1).
  destruct (draw random_sample n g1). simpl in *. now rewrite IH.
Qed.

(** The allocation of iteration [i] comes from the draws made in the state
    that [i] iterations leave. *)
Lemma nth_allocations (k n : nat) (g : G) (i : nat) :
  (i < k)%nat ->
  nth i (cloud k n g) []
  = Np.div_scalar (fst (draw random_sample n (rng_after random_sample i n g)))
      (Np.sum (fst (draw random_sample n (rng_after random_sample i n g)))).
Proof.
  revert g i. induction k as [|k IH]; intros g i Hi; [lia|].
  cbn [allocations].
  destruct (draw random_sample n g) as [a g'] eqn:E.
  destruct i as [|i].
  - cbn [nth rng_after]. now rewrite E.
  - cbn [nth rng_after]. rewrite E. cbn [snd]. apply IH. lia.
Qed.

Lemma Rsum_all_zero (v : list R) :
  Forall (fun r => r = 0%R) v -> Pd.Rsum v = 0%R.
Proof.
  induction 1 as [|r v Hr _ IH]; simpl; [reflexivity|].
  rewrite Hr, IH. apply Rplus_0_l.
Qed.

Lemma dot_of_missing (n : nat) (b : list num) :
  (0 < n)%nat -> length b = n -> Np.dot (repeat NaN n) b = NaN.
Proof.
  intros Hn Hb. destruct n as [|n]; [lia|].
  destruct b as [|y b]; [discriminate|]. reflexivity.
Qed.

(** C5 (amended).  The sampler makes exactly 10000 candidates and fails on
    none.  Candidate [i] is made of the N values drawn at iteration [i],
    each divided by their sum; its return is [w . meanReturn] and its risk
    [sqrt (w^T . covariance . w)].  When the sum of the values drawn is not
    zero, the weights sum to 1.  When all the values drawn are zero, every
    weight is [NaN], and so are the return and the risk of the
    candidate. *)
Theorem sampler_normalizes_each_draw (n : nat) (mean_returns : list num)
  (cov_matrix : list (list num)) (w : world G) (i : nat) (v : list R)
  (g' : G) :
  (i < num_portfolios)%nat ->
  draw random_sample n (rng_after random_sample i n (rng w))
  = (map Num v, g') ->
  num_portfolios = 10000%nat
  /\ length v = n
  /\ exists p_returns p_volatility w',
       sample num_portfolios n mean_returns cov_matrix [] [] w
       = (Ok (p_returns, p_volatility), w')
       /\ calls w' = calls w
       /\ length p_returns = num_portfolios
       /\ length p_volatility = num_portfolios
       /\ (Pd.Rsum v <> 0%R ->
           let shares := map (fun r => (r / Pd.Rsum v)%R) v in
           let weights := map (fun r => Num (r / Pd.Rsum v)) v in
           nth i (cloud num_portfolios n (rng w)) [] = weights
           /\ Np.sum weights = Num 1
           /\ Stat.total shares = 1%R
           /\ nth i p_returns NaN = Np.dot weights mean_returns
           /\ nth i p_volatility NaN
              = Np.sqrt (Np.dot weights (Np.matvec cov_matrix weights))
           /\ forall (m : list R) (C : list (list R)),
                mean_returns = map Num m ->
                cov_matrix = map (map Num) C ->
                (0 <= Spec.quadratic C shares)%R ->
                nth i p_returns NaN = Num (Spec.dot shares m)
                /\ nth i p_volatility NaN
                   = Num (sqrt (Spec.quadratic C shares)))
       /\ (Forall (fun r => r = 0%R) v ->
           nth i (cloud num_portfolios n (rng w)) [] = repeat NaN n
           /\ ((0 < n)%nat -> length mean_returns = n ->
               length cov_matrix = n ->
               nth i p_returns NaN = NaN
               /\ nth i p_volatility NaN = NaN)).
Proof.
  intros Hi Hdraw.
  split; [reflexivity|].
  assert (Hlv : length v = n).
  { pose proof (length_draw n (rng_after random_sample i n (rng w))) as Hl.
    rewrite Hdraw in Hl. cbn [fst] in Hl. now rewrite length_map in Hl. }
  split; [exact Hlv|].
  rewrite sample_portfolios_eq. cbn [app].
  do 3 eexists. split; [reflexivity|].
  split; [reflexivity|].
  rewrite !length_map, length_allocations.
  split; [reflexivity|]. split; [reflexivity|].
  assert (Hret : forall a,
            nth i (cloud num_portfolios n (rng w)) [] = a ->
            nth i (map (portfolio_return mean_returns)
                       (cloud num_portfolios n (rng w))) NaN
            = Np.dot a mean_returns).
  { intros a Ha.
    rewrite (nth_indep _ NaN (portfolio_return mean_returns []))
      by now rewrite length_map, length_allocations.
    now rewrite map_nth, Ha. }
  assert (Hrisk : forall a,
            nth i (cloud num_portfolios n (rng w)) [] = a ->
            nth i (map (portfolio_risk cov_matrix)
                       (cloud num_portfolios n (rng w))) NaN
            = Np.sqrt (Np.dot a (Np.matvec cov_matrix a))).
  { intros a Ha.
    rewrite (nth_indep _ NaN (portfolio_risk cov_matrix []))
      by now rewrite length_map, length_allocations.
    now rewrite map_nth, Ha. }
  split.
  - intros Hsum. cbv zeta.
    assert (Hnth : nth i (cloud num_portfolios n (rng w)) []
                   = map (fun r => Num (r / Pd.Rsum v)) v).
    { rewrite (nth_allocations n (rng w) Hi), Hdraw. cbn [fst].
      now apply div_scalar_reals. }
    split; [exact Hnth|].
    split; [now apply sum_normalized|].
    split; [rewrite total_Rsum, Rsum_map_div; now field|].
    split; [now apply Hret|].
    split; [now apply Hrisk|].
    intros m C Hm HC Hq.
    rewrite (Hret _ Hnth), (Hrisk _ Hnth), Hm, HC.
    rewrite <- (map_map (fun r => (r / Pd.Rsum v)%R) Num).
    now rewrite dot_reals, (@risk_reals _ C Hq).
  - intros Hzero.
    assert (Hnth : nth i (cloud num_portfolios n (rng w)) []
                   = repeat NaN n).
    { rewrite (nth_allocations n (rng w) Hi), Hdraw. cbn [fst].
      rewrite (div_scalar_zero_sum v (Rsum_all_zero Hzero)).
      now rewrite map_const_repeat, Hlv. }
    split; [exact Hnth|].
    intros Hn Hm HC.
    rewrite (Hret _ Hnth), (Hrisk _ Hnth).
    rewrite (@dot_of_missing n mean_returns Hn Hm).
    rewrite dot_of_missing;
      [split; reflexivity | exact Hn
       | unfold Np.matvec; now rewrite length_map].
Qed.

End PipelineFacts.

(* ================================================================== *)
(** * The return model *)
(* ================================================================== *)

Section ReturnModel.

Local Open Scope R_scope.

Lemma pct_row_nth (n : nat) (cur prev : list num) :
  length cur = n -> length prev = n ->
  Pd.pct_row cur prev
  = map (fun j => (nth j cur NaN / nth j prev NaN - Num 1)%num) (seq 0 n).
Proof.
  revert n prev. induction cur as [|p cur IH]; intros n prev Hc Hp.
  - simpl in Hc. subst n. reflexivity.
  - destruct prev as [|q prev]; simpl in Hc, Hp; subst n; [discriminate|].
    injection Hp as Hp. cbn [Pd.pct_row seq map nth].
    f_equal. rewrite <- seq_shift, map_map. now apply IH.
Qed.

Lemma pct_rows_nth (n : nat) (rs : list (list num)) (r : list num) :
  Forall (fun row => length row = n) (r :: rs) ->
  Pd.pct_rows r rs
  = map (fun t =>
           map (fun j => (nth j (nth t (r :: rs) []) NaN
                          / nth j (nth (t - 1) (r :: rs) []) NaN
                          - Num 1)%num)
               (seq 0 n))
        (seq 1 (length rs)).
Proof.
  revert r. induction rs as [|r' rs IH]; intros r Hwf; [reflexivity|].
  inversion Hwf as [|? ? Hr Hrs]; subst.
  inversion Hrs as [|? ? Hr' _]; subst.
  cbn [Pd.pct_rows length seq map]. f_equal.
  - cbn [nth Nat.sub]. now apply pct_row_nth.
  - rewrite (IH r' Hrs), <- (seq_shift (length rs) 1), map_map.
    apply map_ext_in. intros t Ht. apply in_seq in Ht.
    destruct t as [|t]; [lia|].
    cbn [nth Nat.sub]. rewrite Nat.sub_0_r. reflexivity.
Qed.

Lemma complete_spec (row : list num) :
  match Pd.complete row with
  | Some xs => map Num xs = row /\ Spec.no_missing row = true
  | None => Spec.no_missing row = false
  end.
Proof.
  induction row as [|[|a] row IH]; simpl; auto.
  destruct (Pd.complete row) as [xs|]; simpl; [|exact IH].
  destruct IH as [<- IH]. auto.
Qed.

Lemma complete_rows_valid (rs : list (list num)) :
  map (map Num) (Pd.complete_rows rs) = Spec.valid_rows rs.
Proof.
  induction rs as [|r rs IH]; simpl; [reflexivity|].
  pose proof (complete_spec r) as H.
  destruct (Pd.complete r) as [xs|].
  - destruct H as [<- H]. rewrite H. simpl. now rewrite IH.
  - rewrite H. exact IH.
Qed.

Lemma complete_all_missing (A : Type) (r : list A) :
  r <> [] -> Pd.complete (map (fun _ => NaN) r) = None.
Proof. destruct r; [congruence | reflexivity]. Qed.

(** The rows that [dropna] keeps of [pct_change] are the rows without a
    missing value among the simple returns of the rows 2..T. *)
Lemma returns_of_valid_rows (d : Pd.DataFrame) :
  Pd.wf d -> (0 < Pd.ncols d)%nat ->
  map (map Num) (Pd.crows (returns_of d))
  = Spec.valid_rows (Spec.simple_returns d).
Proof.
  intros Hwf Hn. unfold returns_of, Pd.dropna, Pd.pct_change.
  unfold Spec.simple_returns, Spec.simple_return_row, Spec.price.
  unfold Pd.wf in Hwf.
  destruct (Pd.rows d) as [|r rs] eqn:E;
    [cbn [Pd.crows]; rewrite E; reflexivity|].
  cbn [Pd.rows Pd.crows Pd.complete_rows].
  rewrite complete_all_missing.
  2: { inversion Hwf; subst. destruct r; simpl in *; [lia | congruence]. }
  rewrite complete_rows_valid, (pct_rows_nth Hwf).
  cbn [length Nat.sub]. rewrite ?Nat.sub_0_r. reflexivity.
Qed.

Lemma nth_map_seq (A : Type) (f : nat -> A) (n j : nat) (d : A) :
  (j < n)%nat -> nth j (map f (seq 0 n)) d = f j.
Proof.
  intros Hj.
  rewrite (nth_indep _ d (f 0%nat)) by now rewrite length_map, length_seq.
  rewrite (map_nth f (seq 0 n) 0%nat j), seq_nth by assumption.
  reflexivity.
Qed.

Lemma mul_comm (a b : num) : (a * b)%num = (b * a)%num.
Proof. destruct a, b; simpl; try reflexivity. f_equal. lra. Qed.

End ReturnModel.

(* ================================================================== *)
(** * Scaling of the prices *)
(* ================================================================== *)

Section Scaling.

Local Open Scope R_scope.

Variable c : R.
Hypothesis c_pos : 0 < c.

Lemma pct_cell_scale (p q : num) :
  ((Num c * p) / (Num c * q) - Num 1)%num = (p / q - Num 1)%num.
Proof.
  destruct p as [|a], q as [|b]; simpl; try reflexivity.
  destruct (Req_dec_T (c * b) 0) as [H|H], (Req_dec_T b 0) as [H'|H'];
    simpl; try reflexivity.
  - exfalso. apply Rmult_integral in H. destruct H; [lra | contradiction].
  - exfalso. apply H. subst b. lra.
  - f_equal. field. split; [assumption | lra].
Qed.








Variable G : Type.
Variable market_data : list string -> string -> result Pd.DataFrame.
Variable slsqp : problem -> result OptimizeResult.
Variable random_sample : G -> R * G.
Variable format_percent : num -> string.
Variable format_fixed : num -> string.


End Scaling.

(* ================================================================== *)
(** * The claims on concrete runs *)
(* ================================================================== *)

(** Two proof steps for concrete frames: settle the tests of a divisor
    against zero, and compare lists of numbers entry by entry. *)
Ltac decide_divisors :=
  repeat match goal with
         | |- context [Req_dec_T ?a ?b] =>
             destruct (Req_dec_T a b); [lra|]
         end.

Ltac equal_numbers :=
  repeat match goal with
         | |- (_ :: _) = (_ :: _) => apply f_equal2
         | |- Num _ = Num _ => apply f_equal; field
         | |- @nil _ = @nil _ => reflexivity
         end.

Section ConcreteRuns.

Local Open Scope R_scope.
Local Open Scope string_scope.

Local Notation "'w0'" := (@mkWorld nat [] 0%nat).

Lemma parse_a_b : parse_tickers "a,b" = ["A"; "B"].
Proof. reflexivity. Qed.

Lemma num_portfolios_succ : num_portfolios = S 9999.
Proof. reflexivity. Qed.

(** Witness of C10: the input [" , "]. *)
Lemma blank_input_reaches_the_download_witness :
  exists later,
    calls (snd (optimize_portfolio (Demo.market Demo.prices)
                  Demo.converged_solver Demo.halves Demo.show Demo.show
                  " , " default_start_date w0))
    = Download [EmptyString; EmptyString] default_start_date :: later.
Proof.
  assert (H1 : " , " <> EmptyString) by discriminate.
  assert (H2 : Forall (fun c => c = ","%char \/ Py.isspace c = true)
                      (Py.chars " , ")).
  { repeat constructor; solve [left; reflexivity | right; reflexivity]. }
  destruct (@blank_input_reaches_the_download nat (Demo.market Demo.prices)
              Demo.converged_solver Demo.halves Demo.show Demo.show
              " , " default_start_date w0 H1 H2) as (_ & _ & _ & _ & H).
  exact H.
Defined.

(** Counterexample of C9: a repeated symbol stays in the universe. *)
Lemma repeated_ticker_is_kept : ~ NoDup (parse_tickers "aapl, AAPL").
Proof.
  change (parse_tickers "aapl, AAPL") with ["AAPL"; "AAPL"].
  intro H. inversion H as [|? ? Hin _]; subst.
  apply Hin. now left.
Qed.

(** Witness of C9: two symbols, a frame of one column. *)
Lemma universe_is_normalized_and_checked_against_columns_witness :
  optimize_portfolio (Demo.market Demo.two_days) Demo.converged_solver
    Demo.halves Demo.show Demo.show "a,b" default_start_date w0
  = ((EmptyFigure, [],
      "An error occurred: Could not download valid data for all tickers. Please check the company symbols."),
     mkWorld [Download ["A"; "B"] default_start_date] 0%nat).
Proof.
  assert (H1 : "a,b" <> EmptyString) by discriminate.
  assert (H2 : Demo.market Demo.two_days (parse_tickers "a,b")
                 default_start_date = Ok Demo.two_days) by reflexivity.
  assert (H3 : Pd.shape1 Demo.two_days <> length (parse_tickers "a,b"))
    by (simpl; lia).
  destruct (@universe_is_normalized_and_checked_against_columns nat
              (Demo.market Demo.two_days) Demo.converged_solver Demo.halves
              Demo.show Demo.show "a,b" default_start_date w0 Demo.two_days
              H1 H2 H3) as (_ & _ & H).
  exact H.
Defined.

(** The model of the three days of prices [Demo.prices], evaluated. *)
Lemma returns_of_prices :
  returns_of Demo.prices
  = Pd.mkClean 2 [[2 / 1 - 1; 2 / 2 - 1]; [3 / 2 - 1; 4 / 2 - 1]].
Proof.
  unfold returns_of, Pd.dropna, Pd.pct_change, Demo.prices.
  cbn [Pd.rows Pd.ncols map Pd.pct_rows Pd.pct_row Pd.complete_rows
       Pd.complete].
  unfold Np.sub, Np.div, Np.lift2. decide_divisors. reflexivity.
Qed.

Lemma mean_returns_of_prices :
  mean_returns_of Demo.prices = map Num [189; 126].
Proof.
  unfold mean_returns_of. rewrite returns_of_prices.
  unfold Pd.mean, Pd.series_mul, Pd.column_mean, Pd.column, Pd.Rmean,
    trading_days.
  cbn [Pd.cncols Pd.crows seq map nth Pd.Rsum length Np.mul Np.lift2 INR].
  equal_numbers.
Qed.

Lemma cov_matrix_of_prices :
  cov_matrix_of Demo.prices
  = map (map Num) [[63 / 2; - 63]; [- 63; 126]].
Proof.
  unfold cov_matrix_of. rewrite returns_of_prices.
  unfold Pd.cov, Pd.frame_mul, Pd.series_mul, Pd.column_cov, Pd.column,
    Pd.Rmean, trading_days.
  cbn [Pd.cncols Pd.crows seq map nth Pd.Rsum length Np.mul Np.lift2 INR
       Pd.cross Nat.ltb Nat.leb].
  equal_numbers.
Qed.

(** Witness of C1: two symbols, three days of prices; the objective at the
    equal-weight vector. *)
Lemma optimizer_calls_solver_on_negative_sharpe_witness :
  calls (snd (optimize_portfolio (Demo.market Demo.prices)
                Demo.converged_solver Demo.halves Demo.show Demo.show
                "a,b" default_start_date w0))
  = [Download ["A"; "B"] default_start_date;
     Minimize (solver_call ["A"; "B"] Demo.prices)]
  /\ bounds (solver_call ["A"; "B"] Demo.prices)
     = [(Num 0, Num 1); (Num 0, Num 1)]
  /\ objective (solver_call ["A"; "B"] Demo.prices) [Num (1 / 2); Num (1 / 2)]
     = Num (- (315 / 2) / (sqrt (63 / 8) + 1e-9)).
Proof.
  assert (H1 : "a,b" <> EmptyString) by discriminate.
  assert (H2 : Demo.market Demo.prices (parse_tickers "a,b")
                 default_start_date = Ok Demo.prices) by reflexivity.
  assert (H3 : data_invalid Demo.prices (parse_tickers "a,b") = false)
    by reflexivity.
  assert (H4 : Demo.converged_solver
                 (solver_call (parse_tickers "a,b") Demo.prices)
               = Ok (mkSolution
                       (x0 (solver_call (parse_tickers "a,b") Demo.prices))
                       true)) by reflexivity.
  assert (H5 : length (x (mkSolution
                       (x0 (solver_call (parse_tickers "a,b") Demo.prices))
                       true))
               = length (parse_tickers "a,b")) by reflexivity.
  destruct (@optimizer_calls_solver_on_negative_sharpe nat
              (Demo.market Demo.prices) Demo.converged_solver Demo.halves
              Demo.show Demo.show "a,b" default_start_date w0 Demo.prices
              _ H1 H2 H3 H4 H5) as (Hc & Ho & _ & Hb & _).
  split; [exact Hc|]. split; [exact Hb|].
  assert (Hq : Spec.quadratic [[63 / 2; - 63]; [- 63; 126]] [1 / 2; 1 / 2]
               = 63 / 8) by (unfold Spec.quadratic; simpl; field).
  assert (Hr : Spec.dot [1 / 2; 1 / 2] [189; 126] = 315 / 2)
    by (simpl; field).
  assert (Hpos : 0 <= Spec.quadratic [[63 / 2; - 63]; [- 63; 126]]
                        [1 / 2; 1 / 2]) by (rewrite Hq; lra).
  pose proof (Ho [189; 126] [1 / 2; 1 / 2] [[63 / 2; - 63]; [- 63; 126]]
                mean_returns_of_prices cov_matrix_of_prices Hpos) as H.
  rewrite Hq, Hr in H. etransitivity; [exact H|].
  replace (315 / 2 - 0) with (315 / 2) by lra. reflexivity.
Defined.

(** Counterexample of C3: the solver stops at the uniform vector and
    reports no convergence; the run returns that vector in its table and is
    no failure result. *)
Lemma unconverged_run_does_not_fail :
  Demo.stalled_solver (solver_call ["A"; "B"] Demo.prices)
  = Ok (mkSolution (x0 (solver_call ["A"; "B"] Demo.prices)) false)
  /\ snd (fst (fst (optimize_portfolio (Demo.market Demo.prices)
                      Demo.stalled_solver Demo.halves Demo.show Demo.show
                      "a,b" default_start_date w0)))
     = [("A", "num"); ("B", "num")]
  /\ forall e,
       fst (optimize_portfolio (Demo.market Demo.prices)
              Demo.stalled_solver Demo.halves Demo.show Demo.show
              "a,b" default_start_date w0)
       <> failure e.
Proof.
  split; [reflexivity|].
  rewrite (@optimize_portfolio_done nat (Demo.market Demo.prices)
             Demo.stalled_solver Demo.halves Demo.show Demo.show
             "a,b" default_start_date w0 Demo.prices
             (mkSolution (x0 (solver_call ["A"; "B"] Demo.prices)) false))
    by (reflexivity || discriminate).
  split; [reflexivity|].
  intros e. apply failure_not_assembled.
Qed.

(** Witness of C3. *)
Lemma unconverged_solution_is_used_witness :
  snd (fst (fst (optimize_portfolio (Demo.market Demo.prices)
                   Demo.stalled_solver Demo.halves Demo.show Demo.show
                   "a,b" default_start_date w0)))
  = [("A", "num"); ("B", "num")].
Proof.
  assert (H1 : "a,b" <> EmptyString) by discriminate.
  assert (H2 : Demo.market Demo.prices (parse_tickers "a,b")
                 default_start_date = Ok Demo.prices) by reflexivity.
  assert (H3 : data_invalid Demo.prices (parse_tickers "a,b") = false)
    by reflexivity.
  assert (H4 : Demo.stalled_solver
                 (solver_call (parse_tickers "a,b") Demo.prices)
               = Ok (mkSolution
                       (x0 (solver_call (parse_tickers "a,b") Demo.prices))
                       false)) by reflexivity.
  assert (H5 : length (x (mkSolution
                       (x0 (solver_call (parse_tickers "a,b") Demo.prices))
                       false))
               = length (parse_tickers "a,b")) by reflexivity.
  assert (H6 : success (mkSolution
                       (x0 (solver_call (parse_tickers "a,b") Demo.prices))
                       false) = false) by reflexivity.
  destruct (@unconverged_solution_is_used nat
              (Demo.market Demo.prices) Demo.stalled_solver Demo.halves
              Demo.show Demo.show "a,b" default_start_date w0 Demo.prices
              _ H1 H2 H3 H4 H5 H6) as (_ & H & _).
  exact H.
Defined.

Lemma returns_of_two_days : returns_of Demo.two_days = Pd.mkClean 1 [[2 / 1 - 1]].
Proof.
  unfold returns_of, Pd.dropna, Pd.pct_change, Demo.two_days.
  cbn [Pd.rows Pd.ncols map Pd.pct_rows Pd.pct_row Pd.complete_rows
       Pd.complete].
  unfold Np.sub, Np.div, Np.lift2.
  destruct (Req_dec_T 1 0) as [H|H]; [lra | reflexivity].
Qed.

(** Counterexample of C6: two days of prices leave one row of returns; the
    covariance is [NaN] and the run is no failure result. *)
Lemma single_return_row_does_not_fail :
  length (Pd.crows (returns_of Demo.two_days)) = 1%nat
  /\ cov_matrix_of Demo.two_days = [[NaN]]
  /\ forall e,
       fst (optimize_portfolio (Demo.market Demo.two_days)
              Demo.converged_solver Demo.halves Demo.show Demo.show
              "a" default_start_date w0)
       <> failure e.
Proof.
  split; [now rewrite returns_of_two_days|].
  split.
  - rewrite cov_matrix_short; [reflexivity|].
    rewrite returns_of_two_days. simpl. lia.
  - rewrite (@optimize_portfolio_done nat (Demo.market Demo.two_days)
               Demo.converged_solver Demo.halves Demo.show Demo.show
               "a" default_start_date w0 Demo.two_days
               (mkSolution (x0 (solver_call ["A"] Demo.two_days)) true))
      by (reflexivity || discriminate).
    intros e. apply failure_not_assembled.
Qed.

(** Witness of C6. *)
Lemma short_history_is_passed_to_the_solver_witness :
  cov_matrix_of Demo.two_days = [[NaN]].
Proof.
  assert (H1 : "a" <> EmptyString) by discriminate.
  assert (H2 : Demo.market Demo.two_days (parse_tickers "a")
                 default_start_date = Ok Demo.two_days) by reflexivity.
  assert (H3 : data_invalid Demo.two_days (parse_tickers "a") = false)
    by reflexivity.
  assert (H4 : (length (Pd.crows (returns_of Demo.two_days)) < 2)%nat).
  { rewrite returns_of_two_days. simpl. lia. }
  destruct (@short_history_is_passed_to_the_solver nat
              (Demo.market Demo.two_days) Demo.converged_solver Demo.halves
              Demo.show Demo.show "a" default_start_date w0 Demo.two_days
              H1 H2 H3 H4) as (H & _).
  exact H.
Defined.

(** Counterexample of C5: one asset, and a generator whose first value is
    zero.  The first candidate is not a number; it does not sum to one, and
    neither is its return a number. *)
Lemma zero_draw_does_not_sum_to_one :
  nth 0 (allocations Demo.zero_first num_portfolios 1 0%nat) [] = [NaN]
  /\ Np.sum [NaN] <> Num 1
  /\ exists p_returns p_volatility w',
       sample_portfolios Demo.zero_first num_portfolios 1 [Num 1] [[Num 1]]
         [] [] w0
       = (Ok (p_returns, p_volatility), w')
       /\ nth 0 p_returns (Num 0) = NaN.
Proof.
  assert (H : nth 0 (allocations Demo.zero_first num_portfolios 1 0%nat) []
              = [NaN]).
  { rewrite nth_allocations by (rewrite num_portfolios_succ; lia).
    cbn [rng_after draw Demo.zero_first fst].
    unfold Np.div_scalar, Np.sum, Np.add, Np.lift2. cbn [map].
    unfold Np.div.
    destruct (Req_dec_T (0 + 0) 0) as [E|E]; [reflexivity | lra]. }
  split; [exact H|].
  split; [discriminate|].
  rewrite sample_portfolios_eq. cbn [app].
  do 3 eexists. split; [reflexivity|].
  rewrite (nth_indep _ (Num 0) (portfolio_return [Num 1] []))
    by (rewrite length_map, length_allocations, num_portfolios_succ; lia).
  rewrite map_nth. cbn [rng]. rewrite H. reflexivity.
Qed.

(** Witness of C5: two assets, every value drawn is one half. *)
Lemma sampler_normalizes_each_draw_witness :
  Np.sum (map (fun r => Num (r / Pd.Rsum [1 / 2; 1 / 2])) [1 / 2; 1 / 2])
  = Num 1.
Proof.
  assert (H1 : (0 < num_portfolios)%nat)
    by (rewrite num_portfolios_succ; lia).
  assert (H2 : draw Demo.halves 2 (rng_after Demo.halves 0 2 (rng w0))
               = (map Num [1 / 2; 1 / 2], 2%nat)) by reflexivity.
  assert (H3 : Pd.Rsum [1 / 2; 1 / 2] <> 0) by (simpl; lra).
  destruct (@sampler_normalizes_each_draw nat Demo.halves 2 [Num 1; Num 1]
              [[Num 1; Num 0]; [Num 0; Num 1]] w0 0%nat [1 / 2; 1 / 2]
              2%nat H1 H2)
    as (_ & _ & p_returns & p_volatility & w' & _ & _ & _ & _ & Hsum & _).
  destruct (Hsum H3) as (_ & H & _).
  exact H.
Defined.

Lemma wf_prices : Pd.wf Demo.prices.
Proof. repeat constructor. Qed.

Lemma nonzero_demo_prices : Spec.nonzero_prices Demo.prices.
Proof.
  repeat constructor; intro H; injection H as H; lra.
Qed.



End ConcreteRuns.

(* ================================================================== *)
(** * Further properties of the run *)
(* ================================================================== *)

Section RunFacts.

Variable G : Type.
Variable market_data : list string -> string -> result Pd.DataFrame.
Variable slsqp : problem -> result OptimizeResult.
Variable random_sample : G -> R * G.
Variable format_percent : num -> string.
Variable format_fixed : num -> string.

Local Notation "'run'" :=
  (optimize_portfolio market_data slsqp random_sample
     format_percent format_fixed).
Local Notation "'try_block'" :=
  (optimize_portfolio_try market_data slsqp random_sample
     format_percent format_fixed).

Local Opaque num_portfolios.

Lemma guard_passes (tickers_str : string) :
  tickers_str <> EmptyString ->
  ticker_list_empty (parse_tickers tickers_str) tickers_str = false.
Proof.
  intros H. destruct (ticker_list_empty _ _) eqn:E; [|reflexivity].
  apply ticker_list_empty_iff in E. contradiction.
Qed.

(** X1.  A frame without rows, without columns, or in which every cell is
    missing is refused by line 76: the run ends in the failure result of
    line 77 right after the download, the solver is not called and the
    generator is left as it was. *)
Theorem unusable_frame_fails_after_download
  (tickers_str start_date : string) (w : world G) (data : Pd.DataFrame) :
  tickers_str <> EmptyString ->
  market_data (parse_tickers tickers_str) start_date = Ok data ->
  Pd.rows data = [] \/ Pd.ncols data = 0%nat
  \/ Forall (Forall (fun cell => cell = NaN)) (Pd.rows data) ->
  run tickers_str start_date w
  = ((EmptyFigure, [],
      "An error occurred: Could not download valid data for all tickers. Please check the company symbols."%string),
     mkWorld (calls w ++ [Download (parse_tickers tickers_str) start_date])
             (rng w)).
Proof.
  intros Hne Hd Hbad.
  rewrite optimize_portfolio_eq. cbv zeta.
  rewrite (guard_passes Hne), Hd.
  assert (Hinv : data_invalid data (parse_tickers tickers_str) = true).
  { unfold data_invalid, Pd.empty, Pd.isnull_all_all.
    destruct Hbad as [H | [H | H]].
    - rewrite H. reflexivity.
    - rewrite H. cbn [Nat.eqb]. now rewrite !orb_true_r.
    - assert (Hall : forallb (forallb Np.isnan) (Pd.rows data) = true).
      { apply forallb_forall. intros row Hrow.
        rewrite Forall_forall in H. specialize (H row Hrow).
        apply forallb_forall. intros cell Hcell.
        rewrite Forall_forall in H. now rewrite (H cell Hcell). }
      rewrite Hall. now rewrite orb_true_r. }
  rewrite Hinv. reflexivity.
Qed.

(** X2.  When the market-data collaborator raises, the run ends in the
    failure result that carries its message; nothing else is called and the
    generator is left as it was. *)
Theorem download_error_is_reported (tickers_str start_date : string)
  (w : world G) (e : exn) :
  tickers_str <> EmptyString ->
  market_data (parse_tickers tickers_str) start_date = Raise e ->
  run tickers_str start_date w
  = ((EmptyFigure, [], ("An error occurred: " ++ str e)%string),
     mkWorld (calls w ++ [Download (parse_tickers tickers_str) start_date])
             (rng w)).
Proof.
  intros Hne Hd. rewrite optimize_portfolio_eq. cbv zeta.
  now rewrite (guard_passes Hne), Hd.
Qed.

(** X3.  When the solver raises, the run ends in the failure result that
    carries its message; the sampling loop has not run, so the generator is
    left as it was. *)
Theorem solver_error_is_reported (tickers_str start_date : string)
  (w : world G) (data : Pd.DataFrame) (e : exn) :
  tickers_str <> EmptyString ->
  market_data (parse_tickers tickers_str) start_date = Ok data ->
  data_invalid data (parse_tickers tickers_str) = false ->
  slsqp (solver_call (parse_tickers tickers_str) data) = Raise e ->
  run tickers_str start_date w
  = ((EmptyFigure, [], ("An error occurred: " ++ str e)%string),
     mkWorld
       (calls w ++ [Download (parse_tickers tickers_str) start_date;
                    Minimize (solver_call (parse_tickers tickers_str) data)])
       (rng w)).
Proof.
  intros Hne Hd Hv Hs. rewrite optimize_portfolio_eq. cbv zeta.
  rewrite (guard_passes Hne), Hd, Hv, Hs.
  unfold log. cbn [calls rng]. now rewrite <- app_assoc.
Qed.

(** X4.  Whatever the input and the collaborators, a run makes no call at
    all, or one download, or one download followed by one call of the
    solver on the problem of the downloaded frame; it never downloads twice
    and never calls the solver without a frame. *)
Theorem at_most_one_download_then_one_solver_call
  (tickers_str start_date : string) (w : world G) :
  exists made,
    calls (snd (run tickers_str start_date w)) = calls w ++ made
    /\ (made = [] /\ tickers_str = EmptyString
        \/ made = [Download (parse_tickers tickers_str) start_date]
        \/ exists data,
             market_data (parse_tickers tickers_str) start_date = Ok data
             /\ made
                = [Download (parse_tickers tickers_str) start_date;
                   Minimize (solver_call (parse_tickers tickers_str) data)]).
Proof.
  rewrite optimize_portfolio_eq. cbv zeta.
  destruct (ticker_list_empty _ _) eqn:Eg.
  { exists []. rewrite app_nil_r. split; [reflexivity|].
    left. split; [reflexivity|]. now apply ticker_list_empty_iff. }
  destruct (market_data _ _) as [data|e] eqn:Ed.
  2: { eexists. split; [reflexivity|]. right. left. reflexivity. }
  destruct (data_invalid _ _).
  { eexists. split; [reflexivity|]. right. left. reflexivity. }
  exists [Download (parse_tickers tickers_str) start_date;
          Minimize (solver_call (parse_tickers tickers_str) data)].
  split.
  - destruct (slsqp _) as [sol|e].
    + destruct (_ =? _)%nat; reflexivity.
    + unfold log. cbn [snd calls]. now rewrite <- app_assoc.
  - right. right. now exists data.
Qed.

Lemma snd_draw (n : nat) (g : G) :
  snd (draw random_sample n g) = advance random_sample n g.
Proof.
  unfold advance. revert g.
  induction n as [|n IH]; intros g; [reflexivity|].
  rewrite Nat.iter_succ_r. cbn [draw].
  destruct (random_sample g) as [v g1] eqn:E. cbn [snd].
  rewrite <- IH. destruct (draw random_sample n g1). reflexivity.
Qed.

Lemma rng_after_advance (k n : nat) (g : G) :
  rng_after random_sample k n g = advance random_sample (k * n) g.
Proof.
  revert g. induction k as [|k IH]; intros g; [reflexivity|].
  cbn [rng_after]. rewrite IH, snd_draw. unfold advance.
  rewrite <- Nat.iter_add. f_equal. simpl. lia.
Qed.

(** X5.  Once the solver has answered, the run takes exactly
    [10000 * N] values from the generator, N being the number of tickers:
    the state it leaves is the state after that many single draws. *)
Theorem run_consumes_ten_thousand_draws_per_asset
  (tickers_str start_date : string) (w : world G) (data : Pd.DataFrame)
  (sol : OptimizeResult) :
  tickers_str <> EmptyString ->
  market_data (parse_tickers tickers_str) start_date = Ok data ->
  data_invalid data (parse_tickers tickers_str) = false ->
  slsqp (solver_call (parse_tickers tickers_str) data) = Ok sol ->
  rng (snd (run tickers_str start_date w))
  = advance random_sample (10000 * length (parse_tickers tickers_str))
      (rng w).
Proof.
  intros Hne Hd Hv Hs. rewrite optimize_portfolio_eq. cbv zeta.
  rewrite (guard_passes Hne), Hd, Hv, Hs.
  destruct (_ =? _)%nat; cbn [snd rng]; apply rng_after_advance.
Qed.

Lemma neg_objective (weights mean_returns : list num)
  (cov_matrix : list (list num)) :
  Np.neg (negative_sharpe_ratio weights mean_returns cov_matrix
            risk_free_default)
  = (Np.dot weights mean_returns
     / (Np.sqrt (Np.dot weights (Np.matvec cov_matrix weights)) + epsilon))%num.
Proof.
  unfold negative_sharpe_ratio, risk_free_default.
  destruct (Np.dot weights mean_returns) as [|a];
    destruct (Np.sqrt (Np.dot weights (Np.matvec cov_matrix weights))
              + epsilon)%num as [|b]; simpl; try reflexivity.
  destruct (Req_dec_T b 0) as [E|E]; simpl; [reflexivity|].
  f_equal. now field.
Qed.

(** X6.  The Sharpe ratio printed in the summary is the value of the
    objective at the vector returned by the solver, with the sign changed;
    return and risk printed with it are those of the same vector. *)
Theorem printed_sharpe_is_negated_objective
  (tickers_str start_date : string) (w : world G) (data : Pd.DataFrame)
  (sol : OptimizeResult) :
  tickers_str <> EmptyString ->
  market_data (parse_tickers tickers_str) start_date = Ok data ->
  data_invalid data (parse_tickers tickers_str) = false ->
  slsqp (solver_call (parse_tickers tickers_str) data) = Ok sol ->
  length (x sol) = length (parse_tickers tickers_str) ->
  snd (fst (run tickers_str start_date w))
  = summary format_percent format_fixed
      (Np.dot (x sol) (mean_returns_of data))
      (Np.sqrt (Np.dot (x sol) (Np.matvec (cov_matrix_of data) (x sol))))
      (Np.neg (objective (solver_call (parse_tickers tickers_str) data)
                 (x sol))).
Proof.
  intros Hne Hd Hv Hs Hl.
  rewrite (optimize_portfolio_done market_data slsqp random_sample
             format_percent format_fixed start_date w Hne Hd Hv Hs Hl).
  cbn [fst snd assembled solver_call sharpe_problem objective].
  unfold assembled. cbn [snd]. rewrite neg_objective. reflexivity.
Qed.

Lemma nth_div_arrays (a b : list num) (i : nat) :
  length a = length b ->
  nth i (Np.div_arrays a b) NaN = (nth i a NaN / nth i b NaN)%num.
Proof.
  revert b i. induction a as [|p a IH]; intros [|q b] i Hl;
    simpl in Hl; try discriminate.
  - destruct i; reflexivity.
  - destruct i as [|i]; [reflexivity|]. cbn [Np.div_arrays nth].
    apply IH. now injection Hl.
Qed.

Lemma length_div_arrays (a b : list num) :
  length a = length b -> length (Np.div_arrays a b) = length a.
Proof.
  revert b. induction a as [|p a IH]; intros [|q b] Hl; simpl in *;
    try discriminate; [reflexivity|].
  f_equal. apply IH. now injection Hl.
Qed.

Lemma nth_add_scalar (a : list num) (s : num) (i : nat) :
  nth i (Np.add_scalar a s) NaN = (nth i a NaN + s)%num.
Proof.
  unfold Np.add_scalar. revert i.
  induction a as [|p a IH]; intros [|i]; cbn [map nth]; auto.
Qed.

(** X7.  In the figure of a successful run the three arrays of the cloud
    have 10000 entries each, and the colour of every point is its own
    return divided by its own risk plus 1e-9. *)
Theorem cloud_is_coloured_by_sharpe
  (tickers_str start_date : string) (w : world G) (data : Pd.DataFrame)
  (sol : OptimizeResult) :
  tickers_str <> EmptyString ->
  market_data (parse_tickers tickers_str) start_date = Ok data ->
  data_invalid data (parse_tickers tickers_str) = false ->
  slsqp (solver_call (parse_tickers tickers_str) data) = Ok sol ->
  length (x sol) = length (parse_tickers tickers_str) ->
  exists risks returns colours star_x star_y,
    fst (fst (fst (run tickers_str start_date w)))
    = Scatter risks returns colours star_x star_y
    /\ length risks = 10000%nat
    /\ length returns = 10000%nat
    /\ length colours = 10000%nat
    /\ forall i,
         nth i colours NaN
         = (nth i returns NaN / (nth i risks NaN + Num 1e-9))%num.
Proof.
  intros Hne Hd Hv Hs Hl.
  rewrite (optimize_portfolio_done market_data slsqp random_sample
             format_percent format_fixed start_date w Hne Hd Hv Hs Hl).
  unfold assembled. cbn [fst].
  do 5 eexists. split; [reflexivity|].
  assert (Hlen : forall A (f : list num -> A),
            length (map f (allocations random_sample num_portfolios
                             (length (parse_tickers tickers_str)) (rng w)))
            = 10000%nat).
  { intros. now rewrite length_map, length_allocations. }
  split; [apply Hlen|]. split; [apply Hlen|].
  split.
  - rewrite length_div_arrays by (unfold Np.add_scalar;
                                   now rewrite !length_map).
    apply Hlen.
  - intros i. rewrite nth_div_arrays, nth_add_scalar; [reflexivity|].
    unfold Np.add_scalar. now rewrite !length_map.
Qed.

Lemma map_fst_combine (A B : Type) (l : list A) (l' : list B) :
  length l = length l' -> map fst (combine l l') = l.
Proof.
  revert l'. induction l as [|a l IH]; intros [|b l'] H; simpl in *;
    try discriminate; [reflexivity|].
  f_equal. apply IH. now injection H.
Qed.

(** X8.  The table of a run has no row exactly when the [try] block has
    raised, and so has the figure no drawing; otherwise the first column of
    the table is the universe, ticker by ticker in the order of the
    input. *)
Theorem empty_table_means_failure (tickers_str start_date : string)
  (w : world G) :
  (snd (fst (fst (run tickers_str start_date w))) = []
   <-> exists e, fst (try_block tickers_str start_date w) = Raise e)
  /\ (fst (fst (fst (run tickers_str start_date w))) = EmptyFigure
      <-> exists e, fst (try_block tickers_str start_date w) = Raise e)
  /\ ((forall e, fst (try_block tickers_str start_date w) <> Raise e) ->
      map fst (snd (fst (fst (run tickers_str start_date w))))
      = parse_tickers tickers_str).
Proof.
  unfold optimize_portfolio. rewrite try_block_eq. cbv zeta.
  assert (Hraise : forall (e : exn) (w' : world G),
            (snd (fst (fst (failure e, w'))) = []
             <-> exists e', fst (@Raise Output e, w') = Raise e')
            /\ (fst (fst (fst (failure e, w'))) = EmptyFigure
                <-> exists e', fst (@Raise Output e, w') = Raise e')
            /\ ((forall e', fst (@Raise Output e, w') <> Raise e') ->
                map fst (snd (fst (fst (failure e, w'))))
                = parse_tickers tickers_str)).
  { intros e w'. cbn [fst snd failure]. repeat split; eauto.
    intros H. exfalso. exact (H e eq_refl). }
  destruct (ticker_list_empty _ _); [apply Hraise|].
  destruct (market_data _ _) as [data|e]; [|apply Hraise].
  destruct (data_invalid _ _); [apply Hraise|].
  destruct (slsqp _) as [sol|e]; [|apply Hraise].
  destruct (_ =? _)%nat eqn:El; [|apply Hraise].
  apply Nat.eqb_eq in El. unfold assembled. cbn [fst snd].
  assert (Hne : combine (parse_tickers tickers_str)
                  (map format_percent (x sol)) <> []).
  { intro H. apply (f_equal (@length _)) in H.
    rewrite length_combine, length_map, <- El, Nat.min_id in H.
    apply length_zero_iff_nil in H. exact (parse_tickers_not_nil _ H). }
  split; [|split].
  - split; [intros H; contradiction | intros [e H]; discriminate].
  - split; [intros H; discriminate | intros [e H]; discriminate].
  - intros _. apply map_fst_combine. now rewrite length_map.
Qed.

(** X9.  The universe has one ticker more than the input has commas,
    whatever the input; it is never empty, so the division of line 92 is
    always defined and the initial guess is built without an error. *)
Theorem universe_size_is_commas_plus_one (tickers_str : string)
  (w : world G) :
  length (parse_tickers tickers_str) = S (Py.count ","%char tickers_str)
  /\ uniform_guess (length (parse_tickers tickers_str)) w
     = (Ok (repeat (Num (1 / INR (S (Py.count ","%char tickers_str))))
                   (S (Py.count ","%char tickers_str))), w).
Proof.
  assert (H : length (parse_tickers tickers_str)
              = S (Py.count ","%char tickers_str)).
  { unfold parse_tickers. now rewrite length_map, length_split_commas. }
  split; [exact H|]. rewrite H. reflexivity.
Qed.

(** X10.  The run depends on the input string through the universe only:
    two inputs that are not empty and give the same list of tickers give
    the same result and leave the same state. *)
Theorem run_depends_on_the_universe_only
  (first second start_date : string) (w : world G) :
  first <> EmptyString -> second <> EmptyString ->
  parse_tickers first = parse_tickers second ->
  run first start_date w = run second start_date w.
Proof.
  intros H1 H2 Heq. rewrite !optimize_portfolio_eq. cbv zeta.
  now rewrite (guard_passes H1), (guard_passes H2), Heq.
Qed.

Lemma comma_upper_char (c : ascii) :
  Ascii.eqb (Py.upper_char c) ","%char = Ascii.eqb c ","%char.
Proof. destruct c as [[] [] [] [] [] [] [] []]; reflexivity. Qed.

Lemma split_upper (s : string) :
  Py.split ","%char (Py.upper s) = map Py.upper (Py.split ","%char s).
Proof.
  induction s as [|c s IH]; [reflexivity|].
  cbn [Py.upper Py.split]. rewrite comma_upper_char, IH.
  destruct (Ascii.eqb c ","); [reflexivity|].
  destruct (Py.split "," s); reflexivity.
Qed.

Lemma parse_tickers_upper (s : string) :
  parse_tickers (Py.upper s) = parse_tickers s.
Proof.
  unfold parse_tickers. rewrite split_upper, map_map.
  apply map_ext. intros piece. now rewrite strip_upper, upper_idem.
Qed.

(** X11.  The input is read without regard to case: the run on a string
    and the run on the same string in upper case are equal. *)
Theorem input_case_does_not_matter (tickers_str start_date : string)
  (w : world G) :
  parse_tickers (Py.upper tickers_str) = parse_tickers tickers_str
  /\ run (Py.upper tickers_str) start_date w = run tickers_str start_date w.
Proof.
  split; [apply parse_tickers_upper|].
  destruct tickers_str as [|c s]; [reflexivity|].
  apply run_depends_on_the_universe_only; try discriminate.
  apply parse_tickers_upper.
Qed.

Lemma draw_in_range (n : nat) (g g' : G) (v : list R) :
  (forall s, (0 <= fst (random_sample s) < 1)%R) ->
  draw random_sample n g = (map Num v, g') ->
  Forall (fun r => (0 <= r < 1)%R) v.
Proof.
  intros Hr. revert g g' v.
  induction n as [|n IH]; intros g g' v H; cbn [draw] in H.
  - destruct v; [constructor | discriminate].
  - pose proof (Hr g) as Hg.
    destruct (random_sample g) as [r g1].
    destruct (draw random_sample n g1) as [vs g2] eqn:E.
    destruct v as [|r' v]; [discriminate|].
    cbn [map] in H. injection H as Hr' Hvs Hg'. subst r' vs g'.
    constructor; [exact Hg | exact (IH _ _ _ E)].
Qed.

Lemma Rsum_bounds (v : list R) :
  Forall (fun r => (0 <= r)%R) v ->
  (0 <= Pd.Rsum v)%R /\ Forall (fun r => (r <= Pd.Rsum v)%R) v.
Proof.
  induction 1 as [|r v Hr Hv [IH1 IH2]]; simpl.
  - split; [lra | constructor].
  - split; [lra|]. constructor; [lra|].
    eapply Forall_impl; [|exact IH2]. simpl. intros; lra.
Qed.

(** X12.  With a generator whose values lie in [0, 1), a candidate whose
    drawn values do not sum to zero is a feasible allocation: every weight
    lies between 0 and 1 and the weights sum to 1. *)
Theorem sampled_weights_are_feasible (k n : nat) (g : G) (i : nat)
  (v : list R) (g' : G) :
  (forall s, (0 <= fst (random_sample s) < 1)%R) ->
  (i < k)%nat ->
  draw random_sample n (rng_after random_sample i n g) = (map Num v, g') ->
  Pd.Rsum v <> 0%R ->
  nth i (allocations random_sample k n g) []
  = map (fun r => Num (r / Pd.Rsum v)) v
  /\ Forall (fun r => (0 <= r / Pd.Rsum v <= 1)%R) v
  /\ Pd.Rsum (map (fun r => (r / Pd.Rsum v)%R) v) = 1%R.
Proof.
  intros Hrange Hi Hdraw Hsum.
  split.
  { rewrite (nth_allocations random_sample n g Hi), Hdraw. cbn [fst].
    now apply div_scalar_reals. }
  pose proof (draw_in_range _ _ _ Hrange Hdraw) as Hv.
  assert (Hnn : Forall (fun r => (0 <= r)%R) v).
  { eapply Forall_impl; [|exact Hv]. simpl. intros; lra. }
  destruct (Rsum_bounds Hnn) as [Hs Hle].
  assert (Hpos : (0 < Pd.Rsum v)%R) by lra.
  split.
  - rewrite Forall_forall in *. intros r Hin.
    specialize (Hnn r Hin). specialize (Hle r Hin). simpl in Hle.
    split.
    + apply Rmult_le_pos; [exact Hnn|].
      left. now apply Rinv_0_lt_compat.
    + apply (Rmult_le_reg_r (Pd.Rsum v)); [exact Hpos|].
      unfold Rdiv. rewrite Rmult_assoc, Rinv_l by exact Hsum. lra.
  - rewrite Rsum_map_div. now field.
Qed.

(** X13.  With one asset and a generator that never returns zero, every
    candidate is the allocation [1]: the cloud is 10000 times the same
    point, the return of the asset and the square root of its variance. *)
Theorem single_asset_cloud_is_one_point (k : nat) (m var : R)
  (w : world G) :
  (forall s, fst (random_sample s) <> 0%R) ->
  allocations random_sample k 1 (rng w) = repeat [Num 1] k
  /\ sample_portfolios random_sample k 1 [Num m] [[Num var]] [] [] w
     = (Ok (repeat (Num m) k, repeat (Np.sqrt (Num var)) k),
        mkWorld (calls w) (rng_after random_sample k 1 (rng w))).
Proof.
  intros Hnz.
  assert (Hall : forall g, allocations random_sample k 1 g
                           = repeat [Num 1] k).
  { induction k as [|k' IH]; intros g; [reflexivity|].
    cbn [allocations draw repeat].
    pose proof (Hnz g) as Hg.
    destruct (random_sample g) as [r g1]. cbn [fst] in Hg.
    rewrite IH. f_equal.
    unfold Np.div_scalar. cbn [map Np.sum].
    unfold Np.add, Np.lift2, Np.div.
    destruct (Req_dec_T (r + 0) 0) as [E|E]; [exfalso; apply Hg; lra|].
    do 2 f_equal. field. exact Hg. }
  split; [apply Hall|].
  rewrite sample_portfolios_eq, Hall. cbn [app]. rewrite !map_repeat.
  do 3 f_equal.
  - unfold portfolio_return, Np.dot, Np.mul, Np.add, Np.lift2.
    do 2 f_equal. lra.
  - unfold portfolio_risk, Np.matvec.
    cbn [map]. unfold Np.dot, Np.mul, Np.add, Np.lift2.
    replace (1 * (var * 1 + 0) + 0)%R with var by lra. reflexivity.
Qed.

End RunFacts.

(* ================================================================== *)
(** * Further properties of the model and of the problem *)
(* ================================================================== *)

Section ModelFacts.

Local Open Scope R_scope.

Lemma combine_repeat (A B : Type) (a : A) (b : B) (n : nat) :
  combine (repeat a n) (repeat b n) = repeat (a, b) n.
Proof. induction n; simpl; congruence. Qed.

(** X14.  The starting point handed to the solver lies in the box of the
    problem it comes with: it has one component for each pair of bounds,
    and every component is a number within the bounds of its position. *)
Theorem initial_guess_is_feasible (tickers : list string)
  (data : Pd.DataFrame) :
  tickers <> [] ->
  let p := solver_call tickers data in
  length (x0 p) = length (bounds p)
  /\ Forall (fun xb =>
               exists r lo hi,
                 fst xb = Num r /\ snd xb = (Num lo, Num hi)
                 /\ lo <= r <= hi)
            (combine (x0 p) (bounds p)).
Proof.
  intros Hne. cbv zeta.
  assert (Hn : length tickers <> 0%nat).
  { intro H. apply length_zero_iff_nil in H. contradiction. }
  cbn [solver_call sharpe_problem constraints x0 bounds cfun].
  rewrite map_const_repeat, length_seq.
  split; [now rewrite !repeat_length|].
  rewrite combine_repeat. apply Forall_forall. intros xb Hin.
  apply repeat_spec in Hin. subst xb. cbn [fst snd].
  exists (1 / INR (length tickers)), 0, 1.
  split; [reflexivity|]. split; [reflexivity|].
  assert (H1 : 1 <= INR (length tickers)).
  { apply (le_INR 1). lia. }
  unfold Rdiv. rewrite Rmult_1_l. split.
  - left. apply Rinv_0_lt_compat. lra.
  - rewrite <- Rinv_1. apply Rinv_le_contravar; lra.
Qed.

(** X15.  Splitting on commas loses nothing: the pieces of the input,
    joined again by commas, are the input. *)
Theorem join_split_is_identity (s : string) :
  join ","%char (Py.split ","%char s) = s.
Proof.
  induction s as [|c s IH]; [reflexivity|].
  cbn [Py.split].
  destruct (Ascii.eqb c ",") eqn:E.
  - apply Ascii.eqb_eq in E. subst c.
    destruct (Py.split "," s) as [|piece rest] eqn:Es.
    + exfalso. exact (split_not_nil _ _ Es).
    + cbn [join]. cbn [join] in IH. now rewrite IH.
  - destruct (Py.split "," s) as [|piece rest] eqn:Es.
    + exfalso. exact (split_not_nil _ _ Es).
    + cbn [join] in *. destruct rest; simpl in *; now rewrite IH.
Qed.

Lemma cross_sym (mx my : R) (xs ys : list R) :
  Pd.cross mx my xs ys = Pd.cross my mx ys xs.
Proof.
  revert ys. induction xs as [|a xs IH]; intros [|b ys]; simpl;
    try reflexivity.
  rewrite IH. ring.
Qed.

Lemma column_cov_sym (xs ys : list R) :
  length xs = length ys -> Pd.column_cov xs ys = Pd.column_cov ys xs.
Proof.
  intros H. unfold Pd.column_cov. rewrite <- H.
  destruct (length xs <? 2)%nat; [reflexivity|].
  now rewrite cross_sym.
Qed.

(** The entry of the annualized covariance matrix at row [j] and column
    [k]; outside the matrix [nth] returns its default. *)
Lemma cov_entry (d : Pd.DataFrame) (j k : nat) :
  nth k (nth j (cov_matrix_of d) []) NaN
  = if (j <? Pd.ncols d)%nat && (k <? Pd.ncols d)%nat
    then (Pd.column_cov (Pd.column j (returns_of d))
                        (Pd.column k (returns_of d)) * trading_days)%num
    else NaN.
Proof.
  unfold cov_matrix_of, Pd.frame_mul, Pd.series_mul, Pd.cov.
  rewrite cncols_returns_of, map_map.
  destruct (j <? Pd.ncols d)%nat eqn:Ej.
  - apply Nat.ltb_lt in Ej. rewrite nth_map_seq by exact Ej.
    rewrite map_map.
    destruct (k <? Pd.ncols d)%nat eqn:Ek.
    + apply Nat.ltb_lt in Ek. now rewrite nth_map_seq by exact Ek.
    + apply Nat.ltb_ge in Ek. cbn [andb]. apply nth_overflow.
      now rewrite length_map, length_seq.
  - apply Nat.ltb_ge in Ej. cbn [andb].
    rewrite (nth_overflow _ []) by now rewrite length_map, length_seq.
    now destruct k.
Qed.

(** X16.  The covariance matrix of the model is symmetric. *)
Theorem covariance_matrix_is_symmetric (d : Pd.DataFrame) (j k : nat) :
  nth k (nth j (cov_matrix_of d) []) NaN
  = nth j (nth k (cov_matrix_of d) []) NaN.
Proof.
  rewrite !cov_entry, (andb_comm (k <? _)%nat).
  destruct (_ && _); [|reflexivity].
  f_equal. apply column_cov_sym. now rewrite !length_column.
Qed.

Lemma complete_pct_row (cur prev : list num) :
  length cur = length prev ->
  Forall (fun cell => exists r, cell = Num r /\ r <> 0) cur ->
  Forall (fun cell => exists r, cell = Num r /\ r <> 0) prev ->
  exists xs, Pd.complete (Pd.pct_row cur prev) = Some xs.
Proof.
  revert prev. induction cur as [|p cur IH]; intros [|q prev] Hl Hc Hp;
    simpl in Hl; try discriminate.
  - now exists [].
  - inversion Hc as [|? ? (a & -> & Ha) Hc']; subst.
    inversion Hp as [|? ? (b & -> & Hb) Hp']; subst.
    injection Hl as Hl. destruct (IH prev Hl Hc' Hp') as [xs Hxs].
    cbn [Pd.pct_row]. unfold Np.sub, Np.div, Np.lift2.
    destruct (Req_dec_T b 0) as [E|E]; [contradiction|].
    cbn [Pd.complete]. rewrite Hxs. now eexists.
Qed.

Lemma length_complete_pct_rows (n : nat) (rs : list (list num))
  (r : list num) :
  Forall (fun row => length row = n) (r :: rs) ->
  Forall (Forall (fun cell => exists a, cell = Num a /\ a <> 0)) (r :: rs) ->
  length (Pd.complete_rows (Pd.pct_rows r rs)) = length rs.
Proof.
  revert r. induction rs as [|r' rs IH]; intros r Hwf Hp; [reflexivity|].
  inversion Hwf as [|? ? Hr Hwf']; subst.
  inversion Hp as [|? ? Hpr Hp']; subst.
  inversion Hwf' as [|? ? Hr' _]; subst.
  inversion Hp' as [|? ? Hpr' _]; subst.
  cbn [Pd.pct_rows Pd.complete_rows].
  destruct (complete_pct_row Hr' Hpr' Hpr) as [xs Hxs]. rewrite Hxs.
  cbn [length]. f_equal. now apply IH.
Qed.

Lemma length_returns_of_priced (d : Pd.DataFrame) :
  Pd.wf d -> (0 < Pd.ncols d)%nat ->
  Forall (Forall (fun cell => exists a, cell = Num a /\ a <> 0))
         (Pd.rows d) ->
  length (Pd.crows (returns_of d)) = (length (Pd.rows d) - 1)%nat.
Proof.
  intros Hwf Hn Hp.
  unfold returns_of, Pd.dropna, Pd.pct_change. unfold Pd.wf in Hwf.
  destruct (Pd.rows d) as [|r rs] eqn:E;
    [cbn [Pd.crows]; now rewrite E|].
  cbn [Pd.rows Pd.crows Pd.complete_rows].
  rewrite complete_all_missing.
  2: { inversion Hwf; subst. destruct r; simpl in *; [lia | congruence]. }
  rewrite (length_complete_pct_rows Hwf Hp). simpl. lia.
Qed.

(** X17.  A history of T days in which every price is present and not zero
    gives exactly T - 1 rows of returns.  With three days or more every
    entry of the covariance matrix is a number; with two days or fewer
    every entry is [NaN]. *)
Theorem complete_history_gives_one_return_per_step (d : Pd.DataFrame) :
  Pd.wf d -> (0 < Pd.ncols d)%nat ->
  Forall (Forall (fun cell => exists a, cell = Num a /\ a <> 0))
         (Pd.rows d) ->
  length (Pd.crows (returns_of d)) = (length (Pd.rows d) - 1)%nat
  /\ ((3 <= length (Pd.rows d))%nat ->
      Forall (Forall (fun entry => exists a, entry = Num a))
             (cov_matrix_of d))
  /\ ((length (Pd.rows d) <= 2)%nat ->
      cov_matrix_of d = repeat (repeat NaN (Pd.ncols d)) (Pd.ncols d)).
Proof.
  intros Hwf Hn Hp.
  pose proof (length_returns_of_priced Hwf Hn Hp) as Hlen.
  split; [exact Hlen|]. split.
  - intros H3. unfold cov_matrix_of, Pd.frame_mul, Pd.series_mul, Pd.cov.
    rewrite map_map. apply Forall_forall. intros row Hrow.
    apply in_map_iff in Hrow. destruct Hrow as (j & <- & _).
    rewrite map_map. apply Forall_forall. intros entry Hentry.
    apply in_map_iff in Hentry. destruct Hentry as (k & <- & _).
    unfold Pd.column_cov. rewrite length_column, Hlen.
    destruct (length (Pd.rows d) - 1 <? 2)%nat eqn:E.
    + apply Nat.ltb_lt in E. lia.
    + unfold trading_days. simpl. now eexists.
  - intros H2. apply cov_matrix_short. lia.
Qed.

Lemma Rsum_ext (A : Type) (f g : A -> R) (l : list A) :
  (forall a, In a l -> f a = g a) ->
  Pd.Rsum (map f l) = Pd.Rsum (map g l).
Proof. intros H. f_equal. now apply map_ext_in. Qed.






Lemma cross_rows (mj mk : R) (j k : nat) (rs : list (list R)) :
  Pd.cross mj mk (map (fun row => nth j row 0) rs)
                 (map (fun row => nth k row 0) rs)
  = Pd.Rsum (map (fun r => (nth j r 0 - mj) * (nth k r 0 - mk)) rs).
Proof. induction rs as [|r rs IH]; simpl; [|rewrite IH]; reflexivity. Qed.


Lemma mean_returns_reals (d : Pd.DataFrame) :
  Pd.crows (returns_of d) <> [] ->
  mean_returns_of d
  = map Num (map (fun j => Pd.Rmean (Pd.column j (returns_of d)) * 252)
                 (seq 0 (Pd.ncols d))).
Proof.
  intros Hne. unfold mean_returns_of, Pd.series_mul, Pd.mean.
  rewrite cncols_returns_of, !map_map. apply map_ext. intros j.
  unfold Pd.column_mean.
  destruct (Pd.column j (returns_of d)) eqn:E; [|reflexivity].
  apply (f_equal (@length R)) in E. rewrite length_column in E.
  apply length_zero_iff_nil in E. contradiction.
Qed.

Lemma cov_matrix_reals (d : Pd.DataFrame) :
  (2 <= length (Pd.crows (returns_of d)))%nat ->
  cov_matrix_of d
  = map (map Num)
      (map (fun j =>
              map (fun k =>
                     Pd.cross (Pd.Rmean (Pd.column j (returns_of d)))
                              (Pd.Rmean (Pd.column k (returns_of d)))
                              (Pd.column j (returns_of d))
                              (Pd.column k (returns_of d))
                     / (INR (length (Pd.crows (returns_of d))) - 1) * 252)
                  (seq 0 (Pd.ncols d)))
           (seq 0 (Pd.ncols d))).
Proof.
  intros H2. unfold cov_matrix_of, Pd.frame_mul, Pd.series_mul, Pd.cov.
  rewrite cncols_returns_of, !map_map. apply map_ext. intros j.
  rewrite !map_map. apply map_ext. intros k.
  unfold Pd.column_cov. rewrite length_column.
  apply Nat.ltb_ge in H2. rewrite H2. reflexivity.
Qed.


Lemma length_scale_row (cs : list R) (row : list num) :
  length row = length cs -> length (PerAsset.scale_row cs row) = length row.
Proof.
  revert row. induction cs as [|c cs IH]; intros [|p row] H; simpl in *;
    try discriminate; [reflexivity|].
  f_equal. apply IH. now injection H.
Qed.

Lemma pct_row_scale_row (cs : list R) (cur prev : list num) :
  Forall (fun c => 0 < c) cs ->
  length cur = length cs -> length prev = length cs ->
  Pd.pct_row (PerAsset.scale_row cs cur) (PerAsset.scale_row cs prev)
  = Pd.pct_row cur prev.
Proof.
  intros Hpos. revert cur prev.
  induction Hpos as [|c cs Hc _ IH]; intros [|p cur] [|q prev] Hl1 Hl2;
    simpl in Hl1, Hl2; try discriminate; [reflexivity|].
  cbn [PerAsset.scale_row Pd.pct_row].
  rewrite (@pct_cell_scale c Hc), IH; [reflexivity | lia | lia].
Qed.

Lemma pct_rows_scale_row (cs : list R) (rs : list (list num))
  (r : list num) :
  Forall (fun c => 0 < c) cs ->
  Forall (fun row => length row = length cs) (r :: rs) ->
  Pd.pct_rows (PerAsset.scale_row cs r) (map (PerAsset.scale_row cs) rs)
  = Pd.pct_rows r rs.
Proof.
  intros Hpos. revert r.
  induction rs as [|r' rs IH]; intros r Hwf; [reflexivity|].
  inversion Hwf as [|? ? Hr Hwf']; subst.
  inversion Hwf' as [|? ? Hr' _]; subst.
  cbn [map Pd.pct_rows].
  rewrite pct_row_scale_row by assumption. now rewrite IH.
Qed.

Lemma isnull_scale_row (cs : list R) (row : list num) :
  length row = length cs ->
  forallb Np.isnan (PerAsset.scale_row cs row) = forallb Np.isnan row.
Proof.
  revert row. induction cs as [|c cs IH]; intros [|p row] H; simpl in H;
    try discriminate; [reflexivity|].
  cbn [PerAsset.scale_row forallb]. rewrite IH by lia.
  now destruct p.
Qed.

(** X19.  In exact arithmetic: quoting each asset in a unit of its own,
    that is multiplying every column of prices by a positive constant of
    its own, changes neither the returns nor the mean vector, the
    covariance matrix, the validity test, or the problem handed to the
    solver. *)
Theorem per_asset_scaling_changes_nothing (cs : list R)
  (d : Pd.DataFrame) (tickers : list string) :
  Forall (fun c => 0 < c) cs ->
  Forall (fun row => length row = length cs) (Pd.rows d) ->
  returns_of (PerAsset.scale_columns cs d) = returns_of d
  /\ mean_returns_of (PerAsset.scale_columns cs d) = mean_returns_of d
  /\ cov_matrix_of (PerAsset.scale_columns cs d) = cov_matrix_of d
  /\ data_invalid (PerAsset.scale_columns cs d) tickers
     = data_invalid d tickers
  /\ solver_call tickers (PerAsset.scale_columns cs d)
     = solver_call tickers d.
Proof.
  intros Hpos Hwf.
  assert (Hr : returns_of (PerAsset.scale_columns cs d) = returns_of d).
  { unfold returns_of. f_equal.
    destruct d as [n rs]. unfold Pd.pct_change, PerAsset.scale_columns.
    cbn [Pd.rows Pd.ncols] in *.
    destruct rs as [|r rs]; [reflexivity|]. cbn [map]. f_equal. f_equal.
    - rewrite !map_const_repeat. f_equal. apply length_scale_row.
      now inversion Hwf.
    - now apply pct_rows_scale_row. }
  split; [exact Hr|].
  split; [unfold mean_returns_of; now rewrite Hr|].
  split; [unfold cov_matrix_of; now rewrite Hr|].
  split.
  - unfold data_invalid, Pd.empty, Pd.isnull_all_all, Pd.shape1,
      PerAsset.scale_columns.
    cbn [Pd.rows Pd.ncols]. rewrite length_map. f_equal. f_equal.
    induction Hwf as [|r rs Hl _ IH]; [reflexivity|].
    cbn [map forallb]. now rewrite IH, isnull_scale_row.
  - unfold solver_call, mean_returns_of, cov_matrix_of. now rewrite Hr.
Qed.

Lemma cross_constant_left (mx my : R) (xs ys : list R) :
  Forall (fun a => a = mx) xs -> Pd.cross mx my xs ys = 0.
Proof.
  intros H. revert ys.
  induction H as [|a xs Ha _ IH]; intros [|b ys]; simpl; try reflexivity.
  rewrite IH, Ha. ring.
Qed.

(** The returns of an asset whose price never moves are all zero. *)
Lemma flat_price_returns (d : Pd.DataFrame) (j : nat) (p : R) :
  Pd.wf d -> (j < Pd.ncols d)%nat -> p <> 0 ->
  (forall t, (t < length (Pd.rows d))%nat -> Spec.price d t j = Num p) ->
  Pd.column j (returns_of d)
  = repeat 0 (length (Pd.crows (returns_of d))).
Proof.
  intros Hwf Hj Hp Hflat.
  assert (Hn : (0 < Pd.ncols d)%nat) by lia.
  pose proof (returns_of_valid_rows Hwf Hn) as Hrows.
  unfold Pd.column. rewrite <- map_const_repeat.
  apply map_ext_in. intros xs Hxs.
  assert (Hin : In (map Num xs)
                   (Spec.valid_rows (Spec.simple_returns d))).
  { rewrite <- Hrows. now apply in_map. }
  unfold Spec.valid_rows in Hin. apply filter_In in Hin.
  destruct Hin as [Hin _]. unfold Spec.simple_returns in Hin.
  apply in_map_iff in Hin. destruct Hin as (t & Ht & Hrange).
  apply in_seq in Hrange.
  assert (Hcell : nth j (map Num xs) NaN = Num (p / p - 1)).
  { rewrite <- Ht. unfold Spec.simple_return_row.
    rewrite nth_map_seq by exact Hj.
    rewrite !Hflat by lia. simpl.
    destruct (Req_dec_T p 0); [contradiction | reflexivity]. }
  assert (Hlen : length xs = Pd.ncols d).
  { apply (f_equal (@length num)) in Ht.
    unfold Spec.simple_return_row in Ht.
    now rewrite !length_map, length_seq in Ht. }
  rewrite (nth_indep _ NaN (Num 0)) in Hcell
    by (rewrite length_map; lia).
  rewrite map_nth in Hcell. injection Hcell as Hcell.
  rewrite Hcell. now field.
Qed.

(** X20.  In a frame without a zero price, an asset whose price is the
    same on every day has mean return zero and, when at least two rows of
    returns are left, covariance zero with every asset, itself included:
    its row and its column of the covariance matrix are zero. *)
Theorem flat_asset_has_zero_covariance (d : Pd.DataFrame) (j k : nat)
  (p : R) :
  Pd.wf d -> Spec.nonzero_prices d ->
  (j < Pd.ncols d)%nat -> (k < Pd.ncols d)%nat -> p <> 0 ->
  (forall t, (t < length (Pd.rows d))%nat -> Spec.price d t j = Num p) ->
  (2 <= length (Pd.crows (returns_of d)))%nat ->
  nth j (mean_returns_of d) NaN = Num 0
  /\ nth k (nth j (cov_matrix_of d) []) NaN = Num 0
  /\ nth j (nth k (cov_matrix_of d) []) NaN = Num 0.
Proof.
  intros Hwf _ Hj Hk Hp Hflat H2.
  pose proof (flat_price_returns Hwf Hj Hp Hflat) as Hcol.
  set (T := length (Pd.crows (returns_of d))) in *.
  assert (HT : INR T <> 0) by (apply not_0_INR; lia).
  assert (Hmean : Pd.Rmean (Pd.column j (returns_of d)) = 0).
  { rewrite Hcol. unfold Pd.Rmean. rewrite Rsum_repeat, repeat_length.
    now field. }
  assert (Hzero : Forall (fun a => a = Pd.Rmean (Pd.column j (returns_of d)))
                         (Pd.column j (returns_of d))).
  { rewrite Hmean, Hcol. apply Forall_forall. intros a Ha.
    now apply repeat_spec in Ha. }
  assert (Hjk : nth k (nth j (cov_matrix_of d) []) NaN = Num 0).
  { rewrite cov_entry.
    apply Nat.ltb_lt in Hj, Hk. rewrite Hj, Hk. cbn [andb].
    unfold Pd.column_cov. rewrite length_column. fold T.
    apply Nat.ltb_ge in H2. rewrite H2.
    rewrite (cross_constant_left _ _ Hzero).
    unfold trading_days. simpl. f_equal. unfold Rdiv. ring. }
  split; [|split; [exact Hjk|]].
  - rewrite mean_returns_reals.
    2: { intro E. unfold T in H2. rewrite E in H2. simpl in H2. lia. }
    rewrite (nth_indep _ NaN (Num 0))
      by now rewrite !length_map, length_seq.
    rewrite map_nth, nth_map_seq by exact Hj. rewrite Hmean.
    f_equal. ring.
  - rewrite cov_entry.
    apply Nat.ltb_lt in Hj, Hk. rewrite Hj, Hk. cbn [andb].
    rewrite column_cov_sym by now rewrite !length_column.
    unfold Pd.column_cov. rewrite length_column. fold T.
    apply Nat.ltb_ge in H2. rewrite H2.
    rewrite (cross_constant_left _ _ Hzero).
    unfold trading_days. simpl. f_equal. unfold Rdiv. ring.
Qed.

End ModelFacts.

(* ================================================================== *)
(** * The contract of the return model *)
(* ================================================================== *)

Section ReturnModelContract.

Local Open Scope R_scope.

Lemma value_nth_Num (xs : list R) (j : nat) :
  Stat.value (nth j (map Num xs) NaN) = nth j xs 0.
Proof.
  revert j. induction xs as [|a xs IH]; intros [|j]; simpl; auto.
Qed.

Lemma stat_mean_rows (rs : list (list R)) (j : nat) :
  Stat.mean (map (map Num) rs) j
  = Pd.Rmean (map (fun row => nth j row 0) rs).
Proof.
  unfold Stat.mean, Pd.Rmean. rewrite total_Rsum, !length_map, map_map.
  f_equal. apply Rsum_ext. intros xs _. apply value_nth_Num.
Qed.

Lemma stat_covariance_rows (rs : list (list R)) (j k : nat) :
  Stat.covariance (map (map Num) rs) j k
  = Pd.cross (Pd.Rmean (map (fun row => nth j row 0) rs))
             (Pd.Rmean (map (fun row => nth k row 0) rs))
             (map (fun row => nth j row 0) rs)
             (map (fun row => nth k row 0) rs)
    / (INR (length rs) - 1).
Proof.
  unfold Stat.covariance. rewrite !stat_mean_rows, cross_rows.
  rewrite total_Rsum, !length_map, map_map. f_equal.
  apply Rsum_ext. intros xs _. now rewrite !value_nth_Num.
Qed.

(** C2.  For a frame of non-zero prices with at least one column, the rows
    of returns that enter the model are the simple returns
    [P_t / P_(t-1) - 1] of the rows 2..T from which every row with a missing
    value has been dropped.  The mean vector is, column by column, 252 times
    the sum of these returns over their number, and the covariance matrix
    252 times the sum of the products of their deviations from the means
    over their number less one.  All three are functions of the frame
    alone. *)
Theorem return_model_is_annualized_simple_returns (d : Pd.DataFrame) :
  Pd.wf d -> (0 < Pd.ncols d)%nat -> Spec.nonzero_prices d ->
  let r := returns_of d in
  let valid := Spec.valid_rows (Spec.simple_returns d) in
  map (map Num) (Pd.crows r) = valid
  /\ (forall t j p q,
        Spec.price d t j = Num p -> Spec.price d (t - 1) j = Num q ->
        (j < Pd.ncols d)%nat ->
        nth j (Spec.simple_return_row d t) NaN = Num (p / q - 1))
  /\ Pd.cncols r = Pd.ncols d
  /\ (valid <> [] ->
      mean_returns_of d
      = map (fun j => Num (252 * Stat.mean valid j)) (seq 0 (Pd.ncols d)))
  /\ ((2 <= length valid)%nat ->
      cov_matrix_of d
      = map (fun j =>
               map (fun k => Num (252 * Stat.covariance valid j k))
                   (seq 0 (Pd.ncols d)))
            (seq 0 (Pd.ncols d))).
Proof.
  intros Hwf Hn Hnz. cbv zeta.
  pose proof (returns_of_valid_rows Hwf Hn) as Hrows.
  split; [exact Hrows|].
  split.
  { intros t j p q Hp Hq Hj. unfold Spec.simple_return_row.
    rewrite nth_map_seq by assumption.
    rewrite Hp, Hq. simpl.
    destruct (Req_dec_T q 0) as [Hq0|Hq0]; [|reflexivity].
    exfalso. subst q. unfold Spec.price in Hq.
    unfold Spec.nonzero_prices in Hnz.
    destruct (Nat.lt_ge_cases (t - 1) (length (Pd.rows d))) as [Ht|Ht].
    - pose proof (nth_In (Pd.rows d) [] Ht) as Hin.
      rewrite Forall_forall in Hnz. specialize (Hnz _ Hin).
      destruct (Nat.lt_ge_cases j (length (nth (t - 1) (Pd.rows d) [])))
        as [Hj'|Hj'].
      + pose proof (nth_In _ NaN Hj') as Hin'.
        rewrite Forall_forall in Hnz. exact (Hnz _ Hin' Hq).
      + rewrite (nth_overflow _ _ Hj') in Hq. discriminate.
    - rewrite (nth_overflow _ _ Ht) in Hq. destruct j; discriminate. }
  split; [apply cncols_returns_of|].
  rewrite <- Hrows. split.
  - intros Hne.
    assert (Hne' : Pd.crows (returns_of d) <> []).
    { intro E. apply Hne. now rewrite E. }
    rewrite (@mean_returns_reals d Hne'), map_map.
    apply map_ext. intros j. f_equal.
    rewrite stat_mean_rows. unfold Pd.column. ring.
  - intros H2. rewrite length_map in H2.
    rewrite (@cov_matrix_reals d H2), map_map.
    apply map_ext. intros j. rewrite map_map.
    apply map_ext. intros k. f_equal.
    rewrite stat_covariance_rows. unfold Pd.column. ring.
Qed.

Lemma valid_rows_of_prices :
  Spec.valid_rows (Spec.simple_returns Demo.prices)
  = [[Num (2 / 1 - 1); Num (2 / 2 - 1)]; [Num (3 / 2 - 1); Num (4 / 2 - 1)]].
Proof.
  unfold Spec.valid_rows, Spec.simple_returns, Spec.simple_return_row,
    Spec.price, Demo.prices.
  cbn [Pd.rows Pd.ncols length Nat.sub seq map nth].
  unfold Np.sub, Np.div, Np.lift2. decide_divisors. reflexivity.
Qed.

(** Witness of C2: three days of prices of two assets, with the numbers
    of the model. *)
Lemma return_model_is_annualized_simple_returns_witness :
  map (map Num) (Pd.crows (returns_of Demo.prices))
  = [[Num (2 / 1 - 1); Num (2 / 2 - 1)]; [Num (3 / 2 - 1); Num (4 / 2 - 1)]]
  /\ mean_returns_of Demo.prices = [Num 189; Num 126]
  /\ cov_matrix_of Demo.prices
     = [[Num (63 / 2); Num (- 63)]; [Num (- 63); Num 126]].
Proof.
  assert (H2 : (0 < Pd.ncols Demo.prices)%nat) by (simpl; lia).
  destruct (return_model_is_annualized_simple_returns
              wf_prices H2 nonzero_demo_prices) as (Ha & _ & _ & Hm & Hc).
  rewrite valid_rows_of_prices in Ha, Hm, Hc.
  split; [exact Ha|]. split.
  - rewrite Hm by discriminate.
    unfold Stat.mean, Stat.total, Stat.value.
    cbn [Demo.prices Pd.ncols seq map nth fold_right length INR].
    equal_numbers.
  - rewrite Hc by (simpl; lia).
    unfold Stat.covariance, Stat.mean, Stat.total, Stat.value.
    cbn [Demo.prices Pd.ncols seq map nth fold_right length INR].
    equal_numbers.
Defined.

End ReturnModelContract.

(* ================================================================== *)
(** * The further properties on concrete runs *)
(* ================================================================== *)

Section FurtherRuns.

Local Open Scope R_scope.
Local Open Scope string_scope.

Local Notation "'w0'" := (@mkWorld nat [] 0%nat).
Local Notation "'demo_run'" :=
  (optimize_portfolio (Demo.market Demo.prices) Demo.converged_solver
     Demo.halves Demo.show Demo.show "a,b" default_start_date w0).
Local Notation "'demo_x'" := (x0 (solver_call ["A"; "B"] Demo.prices)).

Lemma a_b_not_empty : "a,b" <> EmptyString.
Proof. discriminate. Qed.

Lemma priced_demo_prices :
  Forall (Forall (fun cell => exists a, cell = Num a /\ a <> 0))
         (Pd.rows Demo.prices).
Proof.
  repeat first [apply Forall_nil | apply Forall_cons];
    (eexists; split; [reflexivity | lra]).
Qed.

Lemma priced_flat_second :
  Forall (Forall (fun cell => exists a, cell = Num a /\ a <> 0))
         (Pd.rows Scenario.flat_second).
Proof.
  repeat first [apply Forall_nil | apply Forall_cons];
    (eexists; split; [reflexivity | lra]).
Qed.

Lemma wf_flat_second : Pd.wf Scenario.flat_second.
Proof. repeat constructor. Qed.

(** Witness of X1: a frame of missing prices only. *)
Lemma unusable_frame_fails_after_download_witness :
  optimize_portfolio (Demo.market Scenario.all_missing)
    Demo.converged_solver Demo.halves Demo.show Demo.show
    "a" default_start_date w0
  = ((EmptyFigure, [],
      "An error occurred: Could not download valid data for all tickers. Please check the company symbols."),
     mkWorld [Download ["A"] default_start_date] 0%nat).
Proof.
  assert (H1 : "a" <> EmptyString) by discriminate.
  assert (H3 : Pd.rows Scenario.all_missing = []
               \/ Pd.ncols Scenario.all_missing = 0%nat
               \/ Forall (Forall (fun cell => cell = NaN))
                         (Pd.rows Scenario.all_missing)).
  { right. right. repeat constructor. }
  exact (@unusable_frame_fails_after_download nat
           (Demo.market Scenario.all_missing) Demo.converged_solver
           Demo.halves Demo.show Demo.show "a" default_start_date w0
           Scenario.all_missing H1 eq_refl H3).
Defined.

(** Witness of X2: the provider cannot be reached. *)
Lemma download_error_is_reported_witness :
  optimize_portfolio Scenario.offline Demo.converged_solver
    Demo.halves Demo.show Demo.show "a,b" default_start_date w0
  = ((EmptyFigure, [], "An error occurred: no connection"),
     mkWorld [Download ["A"; "B"] default_start_date] 0%nat).
Proof.
  exact (@download_error_is_reported nat Scenario.offline
           Demo.converged_solver Demo.halves Demo.show Demo.show
           "a,b" default_start_date w0 (CollaboratorError "no connection")
           a_b_not_empty eq_refl).
Defined.

(** Witness of X3: the solver gives up. *)
Lemma solver_error_is_reported_witness :
  optimize_portfolio (Demo.market Demo.prices) Scenario.broken_solver
    Demo.halves Demo.show Demo.show "a,b" default_start_date w0
  = ((EmptyFigure, [], "An error occurred: solver failed"),
     mkWorld [Download ["A"; "B"] default_start_date;
              Minimize (solver_call ["A"; "B"] Demo.prices)] 0%nat).
Proof.
  exact (@solver_error_is_reported nat (Demo.market Demo.prices)
           Scenario.broken_solver Demo.halves Demo.show Demo.show
           "a,b" default_start_date w0 Demo.prices
           (CollaboratorError "solver failed")
           a_b_not_empty eq_refl eq_refl eq_refl).
Defined.

(** Witness of X5: two assets, twenty thousand draws. *)
Lemma run_consumes_ten_thousand_draws_per_asset_witness :
  rng (snd demo_run) = advance Demo.halves (10000 * 2) 0%nat.
Proof.
  exact (@run_consumes_ten_thousand_draws_per_asset nat
           (Demo.market Demo.prices) Demo.converged_solver Demo.halves
           Demo.show Demo.show "a,b" default_start_date w0 Demo.prices
           (mkSolution demo_x true)
           a_b_not_empty eq_refl eq_refl eq_refl).
Defined.

(** Witness of X6. *)
Lemma printed_sharpe_is_negated_objective_witness :
  snd (fst demo_run)
  = summary Demo.show Demo.show
      (Np.dot demo_x (mean_returns_of Demo.prices))
      (Np.sqrt (Np.dot demo_x
                  (Np.matvec (cov_matrix_of Demo.prices) demo_x)))
      (Np.neg (objective (solver_call ["A"; "B"] Demo.prices) demo_x)).
Proof.
  exact (@printed_sharpe_is_negated_objective nat
           (Demo.market Demo.prices) Demo.converged_solver Demo.halves
           Demo.show Demo.show "a,b" default_start_date w0 Demo.prices
           (mkSolution demo_x true)
           a_b_not_empty eq_refl eq_refl eq_refl eq_refl).
Defined.

(** Witness of X7. *)
Lemma cloud_is_coloured_by_sharpe_witness :
  exists risks returns colours star_x star_y,
    fst (fst (fst demo_run)) = Scatter risks returns colours star_x star_y
    /\ length risks = 10000%nat
    /\ length returns = 10000%nat
    /\ length colours = 10000%nat
    /\ forall i,
         nth i colours NaN
         = (nth i returns NaN / (nth i risks NaN + Num 1e-9))%num.
Proof.
  exact (@cloud_is_coloured_by_sharpe nat
           (Demo.market Demo.prices) Demo.converged_solver Demo.halves
           Demo.show Demo.show "a,b" default_start_date w0 Demo.prices
           (mkSolution demo_x true)
           a_b_not_empty eq_refl eq_refl eq_refl eq_refl).
Defined.

(** Witness of X8: the empty input, whose table has no row. *)
Lemma empty_table_means_failure_witness :
  snd (fst (fst (optimize_portfolio (Demo.market Demo.prices)
                   Demo.converged_solver Demo.halves Demo.show Demo.show
                   EmptyString default_start_date w0)))
  = [].
Proof.
  destruct (@empty_table_means_failure nat (Demo.market Demo.prices)
              Demo.converged_solver Demo.halves Demo.show Demo.show
              EmptyString default_start_date w0) as ([_ H] & _).
  apply H. eexists. reflexivity.
Defined.

(** Witness of X10: two spellings of one universe. *)
Lemma run_depends_on_the_universe_only_witness :
  optimize_portfolio (Demo.market Demo.prices) Demo.converged_solver
    Demo.halves Demo.show Demo.show " aapl ,msft" default_start_date w0
  = optimize_portfolio (Demo.market Demo.prices) Demo.converged_solver
      Demo.halves Demo.show Demo.show "AAPL,MSFT" default_start_date w0.
Proof.
  assert (H1 : " aapl ,msft" <> EmptyString) by discriminate.
  assert (H2 : "AAPL,MSFT" <> EmptyString) by discriminate.
  exact (@run_depends_on_the_universe_only nat (Demo.market Demo.prices)
           Demo.converged_solver Demo.halves Demo.show Demo.show
           " aapl ,msft" "AAPL,MSFT" default_start_date w0 H1 H2 eq_refl).
Defined.

Lemma halves_in_range : forall s, 0 <= fst (Demo.halves s) < 1.
Proof. intros s. simpl. lra. Qed.

Lemma halves_not_zero : forall s, fst (Demo.halves s) <> 0.
Proof. intros s. simpl. lra. Qed.

(** Witness of X12: two assets, both values drawn are one half. *)
Lemma sampled_weights_are_feasible_witness :
  Forall (fun r => 0 <= r / Pd.Rsum [1 / 2; 1 / 2] <= 1) [1 / 2; 1 / 2].
Proof.
  assert (H2 : (0 < 1)%nat) by lia.
  assert (H4 : Pd.Rsum [1 / 2; 1 / 2] <> 0) by (simpl; lra).
  destruct (@sampled_weights_are_feasible nat Demo.halves 1 2 0%nat 0%nat
              [1 / 2; 1 / 2] 2%nat halves_in_range H2 eq_refl H4)
    as (_ & H & _).
  exact H.
Defined.

(** Witness of X13: one asset, three candidates. *)
Lemma single_asset_cloud_is_one_point_witness :
  allocations Demo.halves 3 1 0%nat = [[Num 1]; [Num 1]; [Num 1]].
Proof.
  destruct (@single_asset_cloud_is_one_point nat Demo.halves 3 1 1 w0
              halves_not_zero) as (H & _).
  exact H.
Defined.

(** Witness of X14: two tickers. *)
Lemma initial_guess_is_feasible_witness :
  length demo_x = length (bounds (solver_call ["A"; "B"] Demo.prices)).
Proof.
  assert (H : ["A"; "B"] <> []) by discriminate.
  destruct (@initial_guess_is_feasible ["A"; "B"] Demo.prices H)
    as (H1 & _).
  exact H1.
Defined.

(** Witness of X17: three days of prices give two rows of returns. *)
Lemma complete_history_gives_one_return_per_step_witness :
  length (Pd.crows (returns_of Demo.prices)) = 2%nat.
Proof.
  assert (H2 : (0 < Pd.ncols Demo.prices)%nat) by (simpl; lia).
  destruct (@complete_history_gives_one_return_per_step Demo.prices
              wf_prices H2 priced_demo_prices) as (H & _).
  exact H.
Defined.



(** Witness of X19: the first asset doubled, the second tripled. *)
Lemma per_asset_scaling_changes_nothing_witness :
  returns_of (PerAsset.scale_columns [2; 3] Demo.prices)
  = returns_of Demo.prices.
Proof.
  assert (H1 : Forall (fun c => 0 < c) [2; 3]) by (repeat constructor; lra).
  assert (H2 : Forall (fun row => length row = length [2; 3])
                      (Pd.rows Demo.prices)) by repeat constructor.
  destruct (@per_asset_scaling_changes_nothing [2; 3] Demo.prices
              ["A"; "B"] H1 H2) as (H & _).
  exact H.
Defined.

(** Witness of X20: the second asset stays at 5. *)
Lemma flat_asset_has_zero_covariance_witness :
  nth 0 (nth 1 (cov_matrix_of Scenario.flat_second) []) NaN = Num 0.
Proof.
  assert (Hj : (1 < Pd.ncols Scenario.flat_second)%nat) by (simpl; lia).
  assert (Hk : (0 < Pd.ncols Scenario.flat_second)%nat) by (simpl; lia).
  assert (Hp : 5 <> 0) by lra.
  assert (Hflat : forall t, (t < length (Pd.rows Scenario.flat_second))%nat ->
                            Spec.price Scenario.flat_second t 1 = Num 5).
  { intros t Ht. do 4 (destruct t as [|t]; [reflexivity|]).
    simpl in Ht. lia. }
  assert (H2 : (2 <= length (Pd.crows (returns_of Scenario.flat_second)))%nat).
  { rewrite (@length_returns_of_priced Scenario.flat_second wf_flat_second).
    - simpl. lia.
    - simpl. lia.
    - exact priced_flat_second. }
  assert (Hnz : Spec.nonzero_prices Scenario.flat_second).
  { repeat constructor; intro H; injection H as H; lra. }
  destruct (@flat_asset_has_zero_covariance Scenario.flat_second 1 0 5
              wf_flat_second Hnz Hj Hk Hp Hflat H2) as (_ & H & _).
  exact H.
Defined.

End FurtherRuns.
